(** * Datadog agent checks: [mysql_sys.py] and [tcp_roundtrip_latency_check.py]

    A shallow embedding of the two agent checks of the repository and the
    properties of their specification.

    - [Py]: the Python 2 built-ins and library calls the checks rely on
      ([str.split], [int], [float], [re.match], tuple comparison, the
      [csv] reader), exceptions, and a small writer/error monad that
      records every call a check makes on its collaborators.
    - [MySqlSys]: [src/mysql_sys.py].
    - [TCPRoundtripLatencyCheck]: [src/tcp_roundtrip_latency_check.py]. *)

From Stdlib Require Import ZArith QArith Qround String Ascii List Bool Lia.
From Stdlib Require Import DecimalString DecimalPos.
Import ListNotations.

Open Scope string_scope.
Open Scope Z_scope.

(* ===================================================================== *)
(** * Python values, exceptions and effects                               *)
(* ===================================================================== *)

Module Py.

(** A Python [float] is modelled by the exact value its decimal literal
    denotes; the rounding of that value to binary64 is outside the model. *)
Inductive pyfloat : Type :=
| Finite (q : Q)
| Infinity (negative : bool)
| NaN.

(** Values a result-set column can hold. *)
Inductive dbval : Type :=
| DNull
| DStr (s : string)
| DNum (q : Q).

(** Exceptions.  A message built with the [%] operator is kept as its
    template and its arguments. *)
Inductive fmtarg : Type :=
| FStr (s : string)
| FInt (z : Z)
| FFloat (x : pyfloat)
| FStrs (l : list string)
| FVal (v : dbval)
| FExn (e : exn)                       (* str(exception) *)
with exn : Type :=
| Exception (msg : string)             (* raise Exception("...") *)
| RuntimeError (template : string) (args : list fmtarg)
| TCPRoundtripLatencyCheckTimeout (template : string) (args : list fmtarg)
| CalledProcessError (returncode : Z) (output : string)
| OSError (errno : Z)
| ValueError
| TypeError
| IndexError
| AttributeError
| UnboundLocalError
| OverflowError
| CsvError                             (* _csv.Error *)
| MySQLError (code : Z).               (* pymysql.err.MySQLError and subclasses *)

Inductive result (A : Type) : Type :=
| Ok (a : A)
| Raise (e : exn).
Arguments Ok {A} a.
Arguments Raise {A} e.

Definition row := list dbval.

(** Keyword arguments of the four [pymysql.connect] calls of [_connect]. *)
Inductive connect_args : Type :=
| ByDefaultsFile (read_default_file db : string)
| ByUnixSocket (unix_socket user passwd db : string)
| ByHostPort (host : string) (port : Z) (user passwd db : string)
| ByHost (host user passwd db : string).

(** An event dictionary handed to [AgentCheck.event]. *)
Inductive digest : Type :=
| md5_hexdigest (data : string).       (* md5(data).hexdigest() *)

Record event_dict : Type := EventDict {
  timestamp : Z;
  event_type : string;
  msg_title : string * list fmtarg;
  msg_text : string * list fmtarg;
  aggregation_key : digest
}.

Inductive signal : Type := SIGKILL.
Inductive wait_option : Type := WNOHANG.

(** Calls a check makes on the agent base class, the database client
    and the operating system, in the order it makes them. *)
Inductive action : Type :=
| LogDebug (template : string) (args : list fmtarg)
| Warning (template : string) (args : list fmtarg)
| Gauge (name : string) (value : pyfloat) (tags : option (list string))
| Rate (name : string) (value : pyfloat) (tags : option (list string))
| Histogram (name : string) (value : pyfloat) (tags : option (list string))
| Event (e : event_dict)
| Connect (args : connect_args)
| Execute (sql : string)
| Popen (argv : list string)
| Poll (returncode : option Z)
| Sleep (seconds : Q)
| Kill (pid : Z) (sig : signal)
| Waitpid (pid : Z) (options : wait_option) (returned : Z * Z)
| ReadStdout.

(** ** The monad: a log of actions and a value or a raised exception *)

Record M (A : Type) : Type := Run {
  trace : list action;
  outcome : result A
}.
Arguments Run {A} trace outcome.
Arguments trace {A} m.
Arguments outcome {A} m.

Definition ret {A} (a : A) : M A := Run [] (Ok a).

Definition raise {A} (e : exn) : M A := Run [] (Raise e).

Definition bind {A B} (m : M A) (f : A -> M B) : M B :=
  match outcome m with
  | Ok a => let r := f a in Run (trace m ++ trace r) (outcome r)
  | Raise e => Run (trace m) (Raise e)
  end.

Definition emit (a : action) : M unit := Run [a] (Ok tt).

Definition lift {A} (r : result A) : M A := Run [] r.

(** [try: body  except <class>, e: handler e]; [handles] is the
    [isinstance] test of the except clause. *)
Definition try_except {A} (body : M A) (handles : exn -> bool)
    (handler : exn -> M A) : M A :=
  match outcome body with
  | Ok a => body
  | Raise e =>
      if handles e
      then let r := handler e in Run (trace body ++ trace r) (outcome r)
      else body
  end.

Declare Scope py_scope.
Delimit Scope py_scope with py.
Notation "x <- m ;; k" := (bind m (fun x => k))
  (at level 61, m at next level, right associativity) : py_scope.
Notation "m ;; k" := (bind m (fun _ => k))
  (at level 61, right associativity) : py_scope.
Open Scope py_scope.

(** Every class modelled by [exn] derives from [Exception]. *)
Definition isinstance_Exception (e : exn) : bool := true.

Definition isinstance_RuntimeError (e : exn) : bool :=
  match e with RuntimeError _ _ => true | _ => false end.

Definition isinstance_Timeout (e : exn) : bool :=
  match e with TCPRoundtripLatencyCheckTimeout _ _ => true | _ => false end.

Definition isinstance_CalledProcessError (e : exn) : bool :=
  match e with CalledProcessError _ _ => true | _ => false end.

(** ** What the agent receives from a run *)

Definition is_metric (a : action) : bool :=
  match a with
  | Gauge _ _ _ | Rate _ _ _ | Histogram _ _ _ => true
  | _ => false
  end.

Definition is_event (a : action) : bool :=
  match a with Event _ => true | _ => false end.

Definition is_warning (a : action) : bool :=
  match a with Warning _ _ => true | _ => false end.


Definition is_popen (a : action) : bool :=
  match a with Popen _ => true | _ => false end.

Definition metrics (t : list action) : list action := filter is_metric t.
Definition events (t : list action) : list action := filter is_event t.
Definition warnings (t : list action) : list action := filter is_warning t.

(** ** Strings *)

Definition truthy (s : string) : bool :=
  match s with EmptyString => false | _ => true end.

(** [s.split(sep)] for a one-character separator. *)
Fixpoint split (sep : ascii) (s : string) : list string :=
  match s with
  | EmptyString => [EmptyString]
  | String c rest =>
      if Ascii.eqb c sep then EmptyString :: split sep rest
      else match split sep rest with
           | [] => [String c EmptyString]
           | w :: ws => String c w :: ws
           end
  end.

(** [sep.join(l)] *)
Fixpoint join (sep : string) (l : list string) : string :=
  match l with
  | [] => EmptyString
  | [w] => w
  | w :: ws => w ++ sep ++ join sep ws
  end.

(** [l[i]] on a list: [IndexError] out of range. *)
Definition getitem {A} (l : list A) (i : nat) : result A :=
  match nth_error l i with
  | Some a => Ok a
  | None => Raise IndexError
  end.

Definition is_digit (c : ascii) : bool :=
  let n := Z.of_nat (nat_of_ascii c) in (48 <=? n) && (n <=? 57).

Definition digit_value (c : ascii) : Z := Z.of_nat (nat_of_ascii c) - 48.

(** Space, tab, newline, vertical tab, form feed, carriage return. *)
Definition is_space (c : ascii) : bool :=
  let n := Z.of_nat (nat_of_ascii c) in (n =? 32) || ((9 <=? n) && (n <=? 13)).

Fixpoint lstrip (s : string) : string :=
  match s with
  | String c rest => if is_space c then lstrip rest else s
  | EmptyString => EmptyString
  end.

Fixpoint rstrip (s : string) : string :=
  match s with
  | EmptyString => EmptyString
  | String c rest =>
      match rstrip rest with
      | EmptyString => if is_space c then EmptyString else String c EmptyString
      | r => String c r
      end
  end.

Definition strip (s : string) : string := rstrip (lstrip s).

(** The value of a string made of decimal digits only. *)
Fixpoint digits_value (acc : Z) (s : string) : option Z :=
  match s with
  | EmptyString => Some acc
  | String c rest =>
      if is_digit c then digits_value (10 * acc + digit_value c) rest
      else None
  end.

(** [int(s)] on a [str]: surrounding whitespace, an optional sign and a
    non-empty run of decimal digits; anything else is a [ValueError]. *)
Definition unsigned_int (s : string) : result Z :=
  match s with
  | EmptyString => Raise ValueError
  | _ => match digits_value 0 s with
         | Some v => Ok v
         | None => Raise ValueError
         end
  end.

(** A leading sign, if any: whether it is a minus, and what follows it. *)
Definition split_sign (s : string) : bool * string :=
  match s with
  | String c body =>
      if Ascii.eqb c "-"%char then (true, body)
      else if Ascii.eqb c "+"%char then (false, body)
      else (false, s)
  | EmptyString => (false, s)
  end.

Definition py_int (s : string) : result Z :=
  let '(negative, body) := split_sign (strip s) in
  match unsigned_int body with
  | Ok v => Ok (if negative then - v else v)
  | Raise e => Raise e
  end.

(** The leading run of decimal digits of [s]. *)
Fixpoint digit_run (s : string) : string :=
  match s with
  | String c rest => if is_digit c then String c (digit_run rest) else EmptyString
  | EmptyString => EmptyString
  end.

(** [re.match(r"([0-9]+)", s)]: the match object is modelled by its
    group 1; [None] when [s] does not start with a digit. *)
Definition re_match_digits (s : string) : option string :=
  match digit_run s with
  | EmptyString => None
  | run => Some run
  end.

(** [m.group(1)]: [None] has no attribute [group]. *)
Definition group1 (m : option string) : result string :=
  match m with
  | Some g => Ok g
  | None => Raise AttributeError
  end.

(** [a > b] on tuples of integers: the first position where the items
    differ decides; when there is none, the longer tuple is the greater. *)
Fixpoint tuple_gt (a b : list Z) : bool :=
  match a, b with
  | x :: a', y :: b' => if x =? y then tuple_gt a' b' else x >? y
  | _ :: _, [] => true
  | [], _ => false
  end.

(** [str(n)], [%d] and [%s] on an integer. *)
Definition str_of_Z (n : Z) : string := NilZero.string_of_int (Z.to_int n).

(** Sequencing in [result]. *)
Definition rbind {A B} (r : result A) (f : A -> result B) : result B :=
  match r with
  | Ok a => f a
  | Raise e => Raise e
  end.

(** ** [float] *)

Fixpoint after_digits (s : string) : string :=
  match s with
  | String c rest => if is_digit c then after_digits rest else s
  | EmptyString => EmptyString
  end.

Definition lower (c : ascii) : ascii :=
  let n := nat_of_ascii c in
  if ((65 <=? n) && (n <=? 90))%nat then ascii_of_nat (n + 32) else c.

Fixpoint lowercase (s : string) : string :=
  match s with
  | String c rest => String (lower c) (lowercase rest)
  | EmptyString => EmptyString
  end.

(** What follows the mantissa: nothing, or [e]/[E], an optional sign and
    at least one digit. *)
Definition parse_exponent (s : string) : result Z :=
  match s with
  | EmptyString => Ok 0
  | String c rest =>
      if Ascii.eqb (lower c) "e"%char then
        let '(negative, ds) := split_sign rest in
        rbind (unsigned_int ds) (fun v => Ok (if negative then - v else v))
      else Raise ValueError
  end.

(** [mantissa * 10 ^ exponent] as a rational. *)
Definition scale10 (mantissa exponent : Z) : Q :=
  if 0 <=? exponent then inject_Z (mantissa * 10 ^ exponent)
  else Qmake mantissa (Pos.pow 10 (Z.to_pos (- exponent))).

(** An unsigned decimal literal: digits, an optional point and digits (at
    least one digit in all), an optional exponent. *)
Definition after_point (s : string) : option string :=
  match s with
  | String c r => if Ascii.eqb c "."%char then Some r else None
  | EmptyString => None
  end.

Definition parse_decimal (s : string) : result Q :=
  let int_part := digit_run s in
  let rest := after_digits s in
  let frac_part :=
    match after_point rest with Some r => digit_run r | None => EmptyString end in
  let tail :=
    match after_point rest with Some r => after_digits r | None => rest end in
  match (int_part ++ frac_part)%string with
  | EmptyString => Raise ValueError
  | ds =>
      match digits_value 0 ds with
      | None => Raise ValueError
      | Some m =>
          rbind (parse_exponent tail) (fun e =>
          Ok (scale10 m (e - Z.of_nat (String.length frac_part))))
      end
  end.

Definition parse_unsigned_float (s : string) : result pyfloat :=
  let l := lowercase s in
  if (l =? "inf")%string || (l =? "infinity")%string then Ok (Infinity false)
  else if (l =? "nan")%string then Ok NaN
  else rbind (parse_decimal s) (fun q => Ok (Finite q)).

Definition negate (x : pyfloat) : pyfloat :=
  match x with
  | Finite q => Finite (- q)
  | Infinity n => Infinity (negb n)
  | NaN => NaN
  end.

(** [float(s)] on a [str]. *)
Definition py_float (s : string) : result pyfloat :=
  let '(negative, body) := split_sign (strip s) in
  rbind (parse_unsigned_float body) (fun x => Ok (if negative then negate x else x)).

(** [sub in s] *)
Definition contains (sub s : string) : bool :=
  match String.index 0 sub s with
  | Some _ => true
  | None => false
  end.

(** [float(v)] on a value read from a result set: [float(None)] is a
    [TypeError]. *)
Definition float_of_dbval (v : dbval) : result pyfloat :=
  match v with
  | DNum q => Ok (Finite q)
  | DStr s => py_float s
  | DNull => Raise TypeError
  end.

(** [s.splitlines()]: lines end at a line feed, a carriage return, or a
    carriage return followed by a line feed. *)
Fixpoint splitlines (s : string) : list string :=
  match s with
  | EmptyString => []
  | String c rest =>
      if Ascii.eqb c "010"%char then EmptyString :: splitlines rest
      else if Ascii.eqb c "013"%char then
        match rest with
        | String "010"%char rest' => EmptyString :: splitlines rest'
        | _ => EmptyString :: splitlines rest
        end
      else match splitlines rest with
           | [] => [String c EmptyString]
           | w :: ws => String c w :: ws
           end
  end.

(** ** The [csv] reader

    The state machine of CPython 2.7's [_csv] reader under the default
    dialect: comma delimiter, double-quote quote character, doubled quotes, no escape
    character, not strict, no initial-space skipping. *)
Module Csv.

Inductive parser_state : Type :=
| START_RECORD | START_FIELD | IN_FIELD | IN_QUOTED_FIELD
| QUOTE_IN_QUOTED_FIELD | EAT_CRNL.

Record reader : Type := Reader {
  state : parser_state;
  fields : list string;
  field : string
}.

Definition field_limit : Z := 131072.

Definition parse_reset : reader := Reader START_RECORD [] EmptyString.

Definition parse_save_field (r : reader) : reader :=
  Reader (state r) (fields r ++ [field r])%list EmptyString.

Definition parse_add_char (r : reader) (c : ascii) : result reader :=
  if field_limit <=? Z.of_nat (String.length (field r)) then Raise CsvError
  else Ok (Reader (state r) (fields r) (field r ++ String c EmptyString)).

Definition set_state (r : reader) (st : parser_state) : reader :=
  Reader st (fields r) (field r).

Definition is_newline (c : ascii) : bool :=
  Ascii.eqb c "010"%char || Ascii.eqb c "013"%char.

Definition delimiter : ascii := ","%char.
Definition quotechar : ascii := "034"%char.

(** [parse_process_char]; [None] is the end-of-line mark the reader feeds
    after the last character of each line. *)
Definition parse_process_char (r : reader) (c : option ascii) : result reader :=
  let start_field (r : reader) :=
    match c with
    | None => Ok (set_state (parse_save_field r) START_RECORD)
    | Some ch =>
        if is_newline ch then Ok (set_state (parse_save_field r) EAT_CRNL)
        else if Ascii.eqb ch quotechar then Ok (set_state r IN_QUOTED_FIELD)
        else if Ascii.eqb ch delimiter then Ok (parse_save_field r)
        else rbind (parse_add_char r ch) (fun r' => Ok (set_state r' IN_FIELD))
    end in
  match state r with
  | START_RECORD =>
      match c with
      | None => Ok r
      | Some ch =>
          if is_newline ch then Ok (set_state r EAT_CRNL)
          else start_field (set_state r START_FIELD)
      end
  | START_FIELD => start_field r
  | IN_FIELD =>
      match c with
      | None => Ok (set_state (parse_save_field r) START_RECORD)
      | Some ch =>
          if is_newline ch then Ok (set_state (parse_save_field r) EAT_CRNL)
          else if Ascii.eqb ch delimiter then
            Ok (set_state (parse_save_field r) START_FIELD)
          else parse_add_char r ch
      end
  | IN_QUOTED_FIELD =>
      match c with
      | None => Ok r
      | Some ch =>
          if Ascii.eqb ch quotechar then Ok (set_state r QUOTE_IN_QUOTED_FIELD)
          else parse_add_char r ch
      end
  | QUOTE_IN_QUOTED_FIELD =>
      match c with
      | None => Ok (set_state (parse_save_field r) START_RECORD)
      | Some ch =>
          if Ascii.eqb ch quotechar then
            rbind (parse_add_char r ch) (fun r' => Ok (set_state r' IN_QUOTED_FIELD))
          else if Ascii.eqb ch delimiter then
            Ok (set_state (parse_save_field r) START_FIELD)
          else if is_newline ch then
            Ok (set_state (parse_save_field r) EAT_CRNL)
          else rbind (parse_add_char r ch) (fun r' => Ok (set_state r' IN_FIELD))
      end
  | EAT_CRNL =>
      match c with
      | None => Ok (set_state r START_RECORD)
      | Some ch => if is_newline ch then Ok r else Raise CsvError
      end
  end.

(** One line of input: its characters, then the end-of-line mark.  A NUL
    byte in the line is an error. *)
Fixpoint feed_line (r : reader) (line : string) : result reader :=
  match line with
  | EmptyString => parse_process_char r None
  | String c rest =>
      if Ascii.eqb c "000"%char then Raise CsvError
      else rbind (parse_process_char r (Some c)) (fun r' => feed_line r' rest)
  end.

Definition at_record_start (r : reader) : bool :=
  match state r with START_RECORD => true | _ => false end.

Definition in_quoted_field (r : reader) : bool :=
  match state r with IN_QUOTED_FIELD => true | _ => false end.

(** [for row in csv.reader(lines): acc = body(acc, row)]: rows are read
    one at a time ([Reader_iternext]), so an exception of the loop body
    stops the reading.  [r] is the reader at the start of a line. *)
Fixpoint for_rows {S : Type} (body : S -> list string -> result S)
    (r : reader) (lines : list string) (acc : S) : result S :=
  match lines with
  | [] =>
      if negb (String.length (field r) =? 0)%nat || in_quoted_field r
      then body acc (fields (parse_save_field r))
      else Ok acc
  | line :: rest =>
      rbind (feed_line r line) (fun r' =>
        if at_record_start r'
        then rbind (body acc (fields r')) (fun acc' => for_rows body parse_reset rest acc')
        else for_rows body r' rest acc)
  end.

(** [list(csv.reader(lines))] *)
Definition read_all (lines : list string) : result (list (list string)) :=
  for_rows (fun rows r => Ok (rows ++ [r])%list) parse_reset lines [].

End Csv.

(** [c in s] for a character. *)
Fixpoint has_char (c : ascii) (s : string) : bool :=
  match s with
  | EmptyString => false
  | String c' rest => Ascii.eqb c' c || has_char c rest
  end.

(** A field the [csv] reader takes as it stands: no comma, no quote, no
    line feed, no carriage return and no NUL, and no longer than the field
    limit. *)
Definition csv_special (c : ascii) : bool :=
  Ascii.eqb c Csv.delimiter || Ascii.eqb c Csv.quotechar || Csv.is_newline c
  || Ascii.eqb c "000"%char.

Fixpoint no_special (s : string) : bool :=
  match s with
  | EmptyString => true
  | String c rest => negb (csv_special c) && no_special rest
  end.

Definition plain_field (s : string) : bool :=
  no_special s && (Z.of_nat (String.length s) <=? Csv.field_limit).

(** The line ends a line of output may have. *)
Definition line_end (s : string) : bool :=
  (s =? EmptyString)%string || (s =? String "010" EmptyString)%string
  || (s =? String "013" (String "010" EmptyString))%string.

(** The number a decimal numeral denotes, read from its first digit on
    with [acc] for the digits already read. *)
Fixpoint uint_value (acc : Z) (d : Decimal.uint) : Z :=
  match d with
  | Decimal.Nil => acc
  | Decimal.D0 d => uint_value (10 * acc) d
  | Decimal.D1 d => uint_value (10 * acc + 1) d
  | Decimal.D2 d => uint_value (10 * acc + 2) d
  | Decimal.D3 d => uint_value (10 * acc + 3) d
  | Decimal.D4 d => uint_value (10 * acc + 4) d
  | Decimal.D5 d => uint_value (10 * acc + 5) d
  | Decimal.D6 d => uint_value (10 * acc + 6) d
  | Decimal.D7 d => uint_value (10 * acc + 7) d
  | Decimal.D8 d => uint_value (10 * acc + 8) d
  | Decimal.D9 d => uint_value (10 * acc + 9) d
  end.

(** [s.isdigit()], also true of the empty string here. *)
Fixpoint all_digits (s : string) : bool :=
  match s with
  | EmptyString => true
  | String c rest => is_digit c && all_digits rest
  end.

(** [s] does not start with a decimal digit. *)
Definition no_leading_digit (s : string) : bool :=
  match s with
  | EmptyString => true
  | String c _ => negb (is_digit c)
  end.

(** [s.count(c)] for a character. *)
Fixpoint count_char (c : ascii) (s : string) : nat :=
  match s with
  | EmptyString => O
  | String c' rest => ((if Ascii.eqb c' c then 1 else 0) + count_char c rest)%nat
  end.

(** The SQL texts a run hands to [cursor.execute], in order. *)
Fixpoint executed (t : list action) : list string :=
  match t with
  | [] => []
  | Execute sql :: rest => sql :: executed rest
  | _ :: rest => executed rest
  end.

(** A scalar of the YAML configuration: null, a string, an integer or a
    float (which may be an infinity or NaN). *)
Inductive scalar : Type :=
| SNull
| SStr (s : string)
| SInt (n : Z)
| SFloat (x : pyfloat).

(** [float(v)] on a configuration scalar. *)
Definition float_of_scalar (v : scalar) : result pyfloat :=
  match v with
  | SInt n => Ok (Finite (inject_Z n))
  | SFloat x => Ok x
  | SStr s => py_float s
  | SNull => Raise TypeError
  end.

(** [int(x)] on a number drops its fraction, towards zero. *)
Definition truncate (q : Q) : Z :=
  if Qle_bool 0 q then Qfloor q else Qceiling q.

(** [int(v)] on a configuration scalar. *)
Definition int_of_scalar (v : scalar) : result Z :=
  match v with
  | SInt n => Ok n
  | SFloat (Finite q) => Ok (truncate q)
  | SFloat (Infinity _) => Raise OverflowError
  | SFloat NaN => Raise ValueError
  | SStr s => py_int s
  | SNull => Raise TypeError
  end.

(** [n > x] for an integer and a float: nothing is greater than plus
    infinity, everything than minus infinity, and a comparison with NaN
    is false. *)
Definition int_gt_float (n : Z) (x : pyfloat) : bool :=
  match x with
  | Finite q => negb (Qle_bool (inject_Z n) q)
  | Infinity negative => negative
  | NaN => false
  end.

(** The argument of a [%d] conversion given a float: [%d] takes the
    integer part, which an infinity and NaN do not have. *)
Definition format_d (x : pyfloat) : result fmtarg :=
  match x with
  | Finite _ => Ok (FFloat x)
  | Infinity _ => Raise OverflowError
  | NaN => Raise ValueError
  end.

(** [d.get(key, default)] on an optional entry of a dictionary. *)
Definition dict_get {A} (entry : option A) (default : A) : A :=
  match entry with
  | Some a => a
  | None => default
  end.

(** [key in d] and [d[key]] on a dictionary kept as an association list. *)
Fixpoint dict_lookup {A} (key : string) (d : list (string * A)) : option A :=
  match d with
  | [] => None
  | (k, v) :: rest => if (k =? key)%string then Some v else dict_lookup key rest
  end.

End Py.


(* ===================================================================== *)
(** * [mysql_sys.py]                                                      *)
(* ===================================================================== *)

Module MySqlSys.
Import Py.

Definition GAUGE : string := "gauge".
Definition RATE : string := "rate".

Definition METRICS_MAP : list (string * (string * string)) :=
  [("Ps_digest_95th_percentile_by_avg_us",
    ("mysql.sys.query_exec_time_95th_per_us", GAUGE))].

Definition schema_name : string := "sys".

(** The texts of the queries and of the exceptions the check raises. *)
Definition schema_query : string := "select sys_version from version".

Definition percentile_query : string :=
  "select * from x$ps_digest_95th_percentile_by_avg_us".

Definition version_required : string := "MySQL version >= 5.6.5 is required.".

Definition not_installed : string :=
  "The mysql_sys utility is not installed. Please visit https://github.com/MarkLeith/mysql-sys for installation instructions".

Definition fetch_failed : string :=
  "Failed to fetch record from the table x$ps_digest_95th_percentile_by_avg_us".

(** One entry of the [instances] list of the check's configuration; a
    key that is absent is [None].  The port is kept as the scalar the
    configuration holds: [_get_config] converts it with [int]. *)
Record instance : Type := Instance {
  i_server : option string;
  i_user : option string;
  i_port : option scalar;
  i_pass : option string;
  i_sock : option string;
  i_defaults_file : option string;
  i_tags : option (list string);
  i_options : option (list (string * string))
}.

(** What [cursor.execute(sql)] does on an open connection: it raises, or
    leaves a result set in the cursor. *)
Inductive query_result : Type :=
| QueryFails (code : Z)                (* a pymysql.err.MySQLError *)
| ResultSet (rows : list row).

Definition Db : Type := string -> query_result.

(** [cursor = db.cursor(); cursor.execute(sql)]; the cursor is modelled
    by the rows it holds. *)
Definition execute (db : Db) (sql : string) : M (list row) :=
  emit (Execute sql) ;;
  match db sql with
  | QueryFails code => raise (MySQLError code)
  | ResultSet rows => ret rows
  end.

Definition rowcount (cursor : list row) : Z := Z.of_nat (List.length cursor).

Definition fetchone (cursor : list row) : option row := List.hd_error cursor.

(** [result[0]] on what [fetchone] returned: [None] is not subscriptable. *)
Definition first_column (fetched : option row) : result dbval :=
  match fetched with
  | None => Raise TypeError
  | Some r => getitem r 0
  end.

(** [v.split(...)]: only a string has the method. *)
Definition as_str (v : dbval) : result string :=
  match v with
  | DStr s => Ok s
  | _ => Raise AttributeError
  end.

Definition _get_config (inst : instance) :=
  let host := dict_get (i_server inst) EmptyString in
  let user := dict_get (i_user inst) EmptyString in
  rbind (int_of_scalar (dict_get (i_port inst) (SInt 0))) (fun port =>
  let password := dict_get (i_pass inst) EmptyString in
  let mysql_sock := dict_get (i_sock inst) EmptyString in
  let defaults_file := dict_get (i_defaults_file inst) EmptyString in
  let tags := i_tags inst in
  let options := dict_get (i_options inst) [] in
  Ok (host, port, user, password, mysql_sock, defaults_file, tags, options)).

(** The [if]/[elif] chain of [_connect]: which [pymysql.connect] call is
    made, and with which keyword arguments. *)
Definition _connect_args (host : string) (port : Z)
    (mysql_sock user password defaults_file : string) : connect_args :=
  if negb (defaults_file =? EmptyString)%string then
    ByDefaultsFile defaults_file schema_name
  else if negb (mysql_sock =? EmptyString)%string then
    ByUnixSocket mysql_sock user password schema_name
  else if negb (port =? 0) then
    ByHostPort host port user password schema_name
  else
    ByHost host user password schema_name.

(** Lines 152-154 of [_version_greater_565]. *)
Definition version_triple (mysql_version : list string) : result (list Z) :=
  rbind (getitem mysql_version 0) (fun v0 =>
  rbind (py_int v0) (fun major =>
  rbind (getitem mysql_version 1) (fun v1 =>
  rbind (py_int v1) (fun minor =>
  rbind (getitem mysql_version 2) (fun v2 =>
  rbind (group1 (re_match_digits v2)) (fun g =>
  rbind (py_int g) (fun patchlevel =>
  Ok [major; minor; patchlevel]))))))).

(** Lines 173-174 of [_get_version]. *)
Definition version_fields (reported : string) : result (list string) :=
  let version := split "-" reported in
  rbind (getitem version 0) (fun v0 => Ok (split "." v0)).

Definition _get_version (db : Db) (host : string) : M (list string) :=
  cursor <- execute db "SELECT VERSION()" ;;
  let fetched := fetchone cursor in
  v <- lift (first_column fetched) ;;
  reported <- lift (as_str v) ;;
  lift (version_fields reported).

(** The body of the [try] block of [_version_greater_565]. *)
Definition _version_greater_565_try (db : Db) (host : string) : M bool :=
  mysql_version <- _get_version db host ;;
  emit (LogDebug "MySQL version %s" [FStrs mysql_version]) ;;
  triple <- lift (version_triple mysql_version) ;;
  ret (tuple_gt triple [5; 6; 5]).

Definition _version_greater_565 (db : Db) (host : string) : M bool :=
  try_except (_version_greater_565_try db host)
    isinstance_Exception
    (fun exception =>
       emit (Warning
               "Cannot compute mysql version, assuming older than 5.6.5: %s"
               [FExn exception]) ;;
       ret false).

Definition _is_mysql_sys_schema_installed (db : Db) : M bool :=
  cursor <- execute db schema_query ;;
  ret (rowcount cursor >? 0).

Definition _get_query_exec_time_95th_per_us (db : Db) : M dbval :=
  cursor <- execute db percentile_query ;;
  if negb (rowcount cursor =? 1) then
    raise (Exception fetch_failed)
  else
    lift (first_column (fetchone cursor)).

Definition _collect_type (key : string) (dict : list (string * dbval))
    (the_type : dbval -> result pyfloat) : M (option pyfloat) :=
  emit (LogDebug "Collecting data with %s" [FStr key]) ;;
  match dict_lookup key dict with
  | None =>
      emit (LogDebug "%s returned None" [FStr key]) ;;
      ret None
  | Some v =>
      emit (LogDebug "Collecting done, value %s" [FVal v]) ;;
      x <- lift (the_type v) ;;
      ret (Some x)
  end.

Definition _collect_scalar (key : string) (dict : list (string * dbval))
    : M (option pyfloat) :=
  _collect_type key dict float_of_dbval.

Fixpoint _rate_or_gauge_statuses (statuses : list (string * (string * string)))
    (dbResults : list (string * dbval)) (tags : option (list string)) : M unit :=
  match statuses with
  | [] => ret tt
  | (status, (metric_name, metric_type)) :: rest =>
      value <- _collect_scalar status dbResults ;;
      match value with
      | Some x =>
          if (metric_type =? RATE)%string then emit (Rate metric_name x tags)
          else if (metric_type =? GAUGE)%string then emit (Gauge metric_name x tags)
          else ret tt
      | None => ret tt
      end ;;
      _rate_or_gauge_statuses rest dbResults tags
  end.

Definition _collect_metrics (host : string) (db : Db)
    (tags : option (list string)) (options : list (string * string)) : M unit :=
  v <- _get_query_exec_time_95th_per_us db ;;
  let mysql_sys_metrics := [("Ps_digest_95th_percentile_by_avg_us", v)] in
  _rate_or_gauge_statuses METRICS_MAP mysql_sys_metrics tags.

Section Check.

(** The database client: what [pymysql.connect] does with the keyword
    arguments it is given. *)
Variable pymysql_connect : connect_args -> result Db.

Definition _connect (host : string) (port : Z)
    (mysql_sock user password defaults_file : string) : M Db :=
  let args := _connect_args host port mysql_sock user password defaults_file in
  emit (Connect args) ;;
  db <- lift (pymysql_connect args) ;;
  emit (LogDebug "Connected to MySQL" []) ;;
  ret db.

Definition check (inst : instance) : M unit :=
  match _get_config inst with
  | Raise e => raise e
  | Ok (host, port, user, password, mysql_sock, defaults_file, tags, options) =>
  if (negb (truthy host) || negb (truthy user)) && negb (truthy defaults_file) then
    raise (Exception "Mysql host and user are needed.")
  else
    db <- _connect host port mysql_sock user password defaults_file ;;
    greater <- _version_greater_565 db host ;;
    if negb greater then
      raise (Exception version_required)
    else
      installed <- _is_mysql_sys_schema_installed db ;;
      if negb installed then
        raise (Exception not_installed)
      else
        _collect_metrics host db tags options
  end.

(** The instance gets past [_get_config] and the test of line 53; and the
    connection it asks for. *)
Definition valid_config (inst : instance) : bool :=
  match _get_config inst with
  | Raise _ => false
  | Ok (host, port, user, password, mysql_sock, defaults_file, tags, options) =>
      negb ((negb (truthy host) || negb (truthy user)) && negb (truthy defaults_file))
  end.

(** What [int] makes of the port entry, 0 when there is none. *)
Definition converted_port (inst : instance) : result Z :=
  int_of_scalar (dict_get (i_port inst) (SInt 0)).

(** The port [_get_config] returns (of no meaning when it raises). *)
Definition port_of (inst : instance) : Z :=
  match converted_port inst with
  | Ok port => port
  | Raise _ => 0
  end.

Definition host_of (inst : instance) : string := dict_get (i_server inst) EmptyString.

Definition options_of (inst : instance) : list (string * string) :=
  dict_get (i_options inst) [].

Definition connect_args_of (inst : instance) : connect_args :=
  _connect_args (dict_get (i_server inst) EmptyString) (port_of inst)
    (dict_get (i_sock inst) EmptyString) (dict_get (i_user inst) EmptyString)
    (dict_get (i_pass inst) EmptyString) (dict_get (i_defaults_file inst) EmptyString).

Definition connection (inst : instance) : result Db :=
  pymysql_connect (connect_args_of inst).

End Check.

(** Strictly greater than (5, 6, 5) in the lexicographic order. *)
Definition lex_gt_565 (major minor patchlevel : Z) : Prop :=
  major > 5 \/ (major = 5 /\ (minor > 6 \/ (minor = 6 /\ patchlevel > 5))).

(** The server answers [SELECT VERSION()] with the string [reported]. *)
Definition reports (db : Db) (reported : string) : Prop :=
  exists columns more_rows,
    db "SELECT VERSION()" = ResultSet ((DStr reported :: columns) :: more_rows).

Definition user_of (inst : instance) : string := dict_get (i_user inst) EmptyString.

Definition defaults_file_of (inst : instance) : string :=
  dict_get (i_defaults_file inst) EmptyString.

Definition host_and_user_needed : string := "Mysql host and user are needed.".

(** The (major, minor, patchlevel) triple the gate computes from a
    reported version string. *)
Definition parsed_version (reported : string) : result (list Z) :=
  rbind (version_fields reported) version_triple.

End MySqlSys.



(* ===================================================================== *)
(** * [tcp_roundtrip_latency_check.py]                                    *)
(* ===================================================================== *)

Module TCPRoundtripLatencyCheck.
Import Py.

Definition NETPERF_BIN : string := "/usr/bin/netperf".
Definition NETPERF_PROTOCOL : string := "TCP".
Definition NETPERF_TEST_DURATION_SECONDS : Z := 1.
Definition NETPERF_OUTPUT_COLS : string :=
  "PROTOCOL,RT_LATENCY,P90_LATENCY,P99_LATENCY".

(** One entry of the [instances] list; a key that is absent is [None].
    The host is a string, the port and the two sizes are integers, which
    [_get_config] hands on as they are; the timeout is kept as the scalar
    the configuration holds, which [_get_config] converts with [float]. *)
Record instance : Type := Instance {
  i_host : option string;
  i_port : option Z;
  i_tcp_request_size_bytes : option Z;
  i_tcp_response_size_bytes : option Z;
  i_timeout : option scalar;
  i_tags : option (list string);
  i_options : option (list (string * string))
}.

(** What [subprocess.Popen(cmd, ...)] does: it starts a child, or raises. *)
Inductive popen_result : Type :=
| Spawned (pid : Z)
| PopenRaises (e : exn).

(** The operating system as one invocation of the check sees it.  Clock
    readings are microseconds.  [running_clock] has one reading of
    [datetime.datetime.now()] for each turn of the wait loop, that is,
    for each [process.poll()] that finds the child still running; the
    poll after the last of them returns [exit_code].  [waitpid_result] is
    what [os.waitpid(-1, os.WNOHANG)] returns: the process id and status
    of a child it has reaped, or [(0, 0)] when no child has changed
    state yet. *)
Record os : Type := Os {
  popen : list string -> popen_result;
  start_clock : Z;
  running_clock : list Z;
  exit_code : Z;
  waitpid_result : Z * Z;
  stdout_text : string;
  time_time : Z
}.

(** [(now - start).seconds]: the seconds field of a normalised
    [timedelta], without its days and its microseconds. *)
Definition timedelta_seconds (now start : Z) : Z :=
  ((now - start) / 1000000) mod 86400.

Definition nl : string := String "010"%char EmptyString.

Definition _get_config (inst : instance) :=
  let host := dict_get (i_host inst) EmptyString in
  let port := dict_get (i_port inst) 0 in
  let tcp_request_size_bytes := dict_get (i_tcp_request_size_bytes inst) 0 in
  let tcp_response_size_bytes := dict_get (i_tcp_response_size_bytes inst) 0 in
  rbind (float_of_scalar (dict_get (i_timeout inst) (SInt 5))) (fun timeout =>
  let tags := i_tags inst in
  let options := dict_get (i_options inst) [] in
  Ok (host, port, tcp_request_size_bytes, tcp_response_size_bytes, timeout, tags,
      options)).

Definition config_needed : string := "Netperf server host is needed.".

Section Check.

Variable w : os.

(** The test of line 105 on one clock reading. *)
Definition past_deadline (timeout : pyfloat) (now : Z) : bool :=
  int_gt_float (timedelta_seconds now (start_clock w)) timeout.

Definition timeout_event (host : string) (timeout : pyfloat)
    (aggregation_key : digest)
    : M unit :=
  emit (Event {|
    timestamp := time_time w;
    event_type := "mysql_tcp_rt_latency_check";
    msg_title := ("MySQL host %s to remote host RT latency timeout", [FStr host]);
    msg_text := ("TCP connection attempt to %s timed out after %s seconds.",
                 [FStr host; FFloat timeout]);
    aggregation_key := aggregation_key |}).

Definition error_event (host : string) (error_msg : exn) (aggregation_key : digest)
    : M unit :=
  emit (Event {|
    timestamp := time_time w;
    event_type := "mysql_tcp_rt_latency_check";
    msg_title :=
      ("MySQL host %s to remote host RT latency command returned invalid code",
       [FStr host]);
    msg_text := ("%s", [FExn error_msg]);
    aggregation_key := aggregation_key |}).

(** The [while process.poll() is None] loop and the read that follows it. *)
Fixpoint wait_loop (command : string) (timeout : pyfloat) (pid : Z)
    (clock : list Z)
    : M string :=
  match clock with
  | [] =>
      emit (Poll (Some (exit_code w))) ;;
      emit ReadStdout ;;
      ret (stdout_text w)
  | now :: later =>
      emit (Poll None) ;;
      emit (Sleep (1 # 10)) ;;
      if past_deadline timeout now
      then
        emit (Kill pid SIGKILL) ;;
        emit (Waitpid (-1) WNOHANG (waitpid_result w)) ;;
        seconds <- lift (format_d timeout) ;;
        raise (TCPRoundtripLatencyCheckTimeout
                 "The command '%s' timed out after %d seconds"
                 [FStr command; seconds])
      else wait_loop command timeout pid later
  end.

Definition _timeout_command (command : string) (timeout : pyfloat) : M string :=
  let cmd := split " " command in
  pid <- try_except
           (emit (Popen cmd) ;;
            match popen w cmd with
            | Spawned pid => ret pid
            | PopenRaises e => raise e
            end)
           isinstance_CalledProcessError
           (fun e =>
              match e with
              | CalledProcessError returncode output =>
                  raise (RuntimeError
                    ("Command '%s' failed. Return code: %s." ++ nl ++
                     "Output:" ++ nl ++ " %s.")
                    [FStr command; FInt returncode;
                     FStr (join (nl ++ " ") (splitlines output))])
              | _ => raise e
              end) ;;
  wait_loop command timeout pid (running_clock w).

(** [protocol, rt_latency, p90_latency, p99_latency = row]; the loop
    variable the code reads afterwards is [rt_latency]. *)
Definition unpack_row (bound : option string) (row : list string)
    : result (option string) :=
  match row with
  | [protocol; rt_latency; p90_latency; p99_latency] => Ok (Some rt_latency)
  | _ => Raise ValueError
  end.

(** Lines 81-84: the loop over [csv.reader([res])], then
    [float(rt_latency)]. *)
Definition parse_output (res : string) : result pyfloat :=
  rbind (Csv.for_rows unpack_row Csv.parse_reset [res] None) (fun bound =>
  match bound with
  | None => Raise UnboundLocalError
  | Some rt_latency => py_float rt_latency
  end).

Definition netperf_cmd (host : string) (port tcp_request_size_bytes
    tcp_response_size_bytes : Z) : string :=
  NETPERF_BIN ++ " -l " ++ str_of_Z NETPERF_TEST_DURATION_SECONDS ++
  " -H " ++ host ++ " -p " ++ str_of_Z port ++
  " -t omni -j -v 0 -P 0 -- -d rr -o " ++ NETPERF_OUTPUT_COLS ++
  " -r " ++ str_of_Z tcp_request_size_bytes ++ "," ++
  str_of_Z tcp_response_size_bytes ++ " -T " ++ NETPERF_PROTOCOL ++ " -b 6".

Definition _collect_metrics (host : string) (port tcp_request_size_bytes
    tcp_response_size_bytes : Z) (timeout : pyfloat) (tags : option (list string))
    (aggregation_key : digest) : M unit :=
  let command :=
    netperf_cmd host port tcp_request_size_bytes tcp_response_size_bytes in
  res <- try_except
           (res <- _timeout_command command timeout ;; ret (Some res))
           (fun e => isinstance_RuntimeError e || isinstance_Timeout e)
           (fun e =>
              if isinstance_RuntimeError e
              then error_event host e aggregation_key ;; ret None
              else timeout_event host timeout aggregation_key ;; ret None) ;;
  match res with
  | None => ret tt
  | Some res =>
      rt_latency <- lift (parse_output res) ;;
      emit (Histogram "mysql.net.tcp_rt_latency" rt_latency tags)
  end.

Definition check (inst : instance) : M unit :=
  match _get_config inst with
  | Raise e => raise e
  | Ok (host, port, tcp_request_size_bytes, tcp_response_size_bytes,
        timeout, tags, options) =>
  if negb (truthy host) || (port =? 0) || (tcp_request_size_bytes =? 0)
     || (tcp_response_size_bytes =? 0)
  then raise (Exception config_needed)
  else
    let aggregation_key := md5_hexdigest host in
    _collect_metrics host port tcp_request_size_bytes tcp_response_size_bytes
      timeout tags aggregation_key
  end.

End Check.

(** ** Reading an instance and a run *)

Definition host_of (inst : instance) : string := dict_get (i_host inst) EmptyString.
Definition port_of (inst : instance) : Z := dict_get (i_port inst) 0.
Definition request_size_of (inst : instance) : Z :=
  dict_get (i_tcp_request_size_bytes inst) 0.
Definition response_size_of (inst : instance) : Z :=
  dict_get (i_tcp_response_size_bytes inst) 0.

(** What [float] makes of the timeout entry, 5 when there is none. *)
Definition converted_timeout (inst : instance) : result pyfloat :=
  float_of_scalar (dict_get (i_timeout inst) (SInt 5)).

(** The timeout [_get_config] returns (of no meaning when it raises). *)
Definition timeout_of (inst : instance) : pyfloat :=
  match converted_timeout inst with
  | Ok timeout => timeout
  | Raise _ => NaN
  end.

(** The test of lines 33-34. *)
Definition incomplete (inst : instance) : bool :=
  negb (truthy (host_of inst)) || (port_of inst =? 0)
  || (request_size_of inst =? 0) || (response_size_of inst =? 0).

(** The instance gets past [_get_config] and the test of lines 33-34. *)
Definition valid_config (inst : instance) : bool :=
  match converted_timeout inst with
  | Ok _ => negb (incomplete inst)
  | Raise _ => false
  end.


Definition command_of (inst : instance) : string :=
  netperf_cmd (host_of inst) (port_of inst) (request_size_of inst)
    (response_size_of inst).

Definition argv_of (inst : instance) : list string := split " " (command_of inst).

(** The child was running at every reading of the clock and none of the
    readings was past the deadline: the command completed in time. *)
Definition completes_in_time (w : os) (timeout : pyfloat) : bool :=
  forallb (fun now => negb (past_deadline w timeout now)) (running_clock w).

(** The turns of the wait loop that find the child running and the
    deadline not passed. *)
Definition idle_turns (clock : list Z) : list action :=
  flat_map (fun _ => [Poll None; Sleep (1 # 10)]) clock.

(** A [waitpid] call of the run returned the process id [pid]: the child
    has been reaped. *)
Definition reaps (pid : Z) (a : action) : bool :=
  match a with
  | Waitpid _ _ (reaped_pid, _) => reaped_pid =? pid
  | _ => false
  end.

Definition reaped (pid : Z) (t : list action) : bool := existsb (reaps pid) t.

Definition kills (pid : Z) (a : action) : bool :=
  match a with
  | Kill p SIGKILL => p =? pid
  | _ => false
  end.

Definition killed (pid : Z) (t : list action) : bool := existsb (kills pid) t.

Definition is_timeout {A} (r : result A) : bool :=
  match r with
  | Raise (TCPRoundtripLatencyCheckTimeout _ _) => true
  | _ => false
  end.

(** The resource invariant as the specification words it: whenever
    [_timeout_command] signals the timeout, the child has been killed and
    reaped. *)
Definition timeout_only_after_kill_and_reap : Prop :=
  forall (w : os) (command : string) (timeout : pyfloat) (pid : Z),
    popen w (split " " command) = Spawned pid ->
    is_timeout (outcome (_timeout_command w command timeout)) = true ->
    killed pid (trace (_timeout_command w command timeout)) = true /\
    reaped pid (trace (_timeout_command w command timeout)) = true.

(** The signals sent and the [waitpid] calls made, and the sleeps. *)
Definition is_kill_or_wait (a : action) : bool :=
  match a with
  | Kill _ _ | Waitpid _ _ _ => true
  | _ => false
  end.

Definition is_sleep (a : action) : bool :=
  match a with Sleep _ => true | _ => false end.

(** [acc = body(acc, row)] over a list of rows already read. *)
Fixpoint fold_rows {S : Type} (body : S -> list string -> result S)
    (rows : list (list string)) (acc : S) : result S :=
  match rows with
  | [] => Ok acc
  | r :: rest => rbind (body acc r) (fun acc' => fold_rows body rest acc')
  end.

End TCPRoundtripLatencyCheck.


(* ===================================================================== *)
(** * Facts about runs and conversions                                    *)
(* ===================================================================== *)

Module PyFacts.
Import Py.

Lemma outcome_bind {A B} (m : M A) (f : A -> M B) :
  outcome (bind m f) =
  match outcome m with Ok a => outcome (f a) | Raise e => Raise e end.
Proof. unfold bind. destruct (outcome m); reflexivity. Qed.

Lemma trace_bind {A B} (m : M A) (f : A -> M B) :
  trace (bind m f) =
  match outcome m with Ok a => (trace m ++ trace (f a))%list | Raise e => trace m end.
Proof. unfold bind. destruct (outcome m); reflexivity. Qed.

Lemma bind_run {A B} (m : M A) (f : A -> M B) t a :
  m = Run t (Ok a) -> bind m f = Run (t ++ trace (f a)) (outcome (f a)).
Proof. intros ->. reflexivity. Qed.

Lemma bind_raises {A B} (m : M A) (f : A -> M B) t e :
  m = Run t (Raise e) -> bind m f = Run t (Raise e).
Proof. intros ->. reflexivity. Qed.

Lemma run_eta {A} (m : M A) : m = Run (trace m) (outcome m).
Proof. destruct m; reflexivity. Qed.

Lemma metrics_app t1 t2 : metrics (t1 ++ t2) = (metrics t1 ++ metrics t2)%list.
Proof. apply filter_app. Qed.

Lemma events_app t1 t2 : events (t1 ++ t2) = (events t1 ++ events t2)%list.
Proof. apply filter_app. Qed.

(** ** [float] raises nothing but [ValueError] *)

Lemma unsigned_int_raises s e : unsigned_int s = Raise e -> e = ValueError.
Proof.
  unfold unsigned_int. destruct s; [congruence|].
  destruct (digits_value 0 _); congruence.
Qed.

Lemma parse_exponent_raises s e : parse_exponent s = Raise e -> e = ValueError.
Proof.
  unfold parse_exponent. destruct s as [|c rest]; [discriminate|].
  destruct (Ascii.eqb (lower c) "e"); [|congruence].
  destruct (split_sign rest) as [negative ds].
  destruct (unsigned_int ds) eqn:U; cbn; [discriminate|].
  intros [= <-]. exact (unsigned_int_raises _ _ U).
Qed.

Lemma parse_decimal_raises s e : parse_decimal s = Raise e -> e = ValueError.
Proof.
  unfold parse_decimal.
  destruct (digit_run s ++ _)%string; [congruence|].
  destruct (digits_value 0 _); [|congruence].
  destruct (parse_exponent _) eqn:P; cbn; [discriminate|].
  intros [= <-]. exact (parse_exponent_raises _ _ P).
Qed.

Lemma py_float_raises s e : py_float s = Raise e -> e = ValueError.
Proof.
  unfold py_float. destruct (split_sign (strip s)) as [negative body].
  unfold parse_unsigned_float.
  destruct (_ || _); [discriminate|].
  destruct (_ =? _)%string; [discriminate|].
  destruct (parse_decimal body) eqn:P; cbn; [discriminate|].
  intros [= <-]. exact (parse_decimal_raises _ _ P).
Qed.

End PyFacts.

(* ===================================================================== *)
(** * Properties of the MySQL check                                       *)
(* ===================================================================== *)

Module MySqlSysProps.
Import Py PyFacts MySqlSys.

(** The gate never raises: it returns what its [try] block computed, or
    [False] after a warning. *)
Lemma gate_run db host :
  _version_greater_565 db host =
  match outcome (_version_greater_565_try db host) with
  | Ok b => _version_greater_565_try db host
  | Raise e =>
      Run (trace (_version_greater_565_try db host) ++
           [Warning "Cannot compute mysql version, assuming older than 5.6.5: %s"
              [FExn e]])
          (Ok false)
  end.
Proof.
  unfold _version_greater_565, try_except.
  destruct (outcome (_version_greater_565_try db host)); reflexivity.
Qed.

Lemma gate_outcome db host :
  outcome (_version_greater_565 db host) =
  match outcome (_version_greater_565_try db host) with
  | Ok b => Ok b
  | Raise _ => Ok false
  end.
Proof.
  rewrite gate_run.
  destruct (outcome (_version_greater_565_try db host)) eqn:E; [exact E | reflexivity].
Qed.

Lemma try_outcome db host s :
  reports db s ->
  outcome (_version_greater_565_try db host) =
  rbind (parsed_version s) (fun t => Ok (tuple_gt t [5; 6; 5])).
Proof.
  intros (cols & more & H).
  unfold _version_greater_565_try, _get_version, execute, parsed_version.
  rewrite H. cbn.
  destruct (version_fields s) as [f|e]; cbn; [|reflexivity].
  destruct (version_triple f) as [t|e]; reflexivity.
Qed.


Lemma tuple_gt_565 major minor patchlevel :
  tuple_gt [major; minor; patchlevel] [5; 6; 5] = true <->
  lex_gt_565 major minor patchlevel.
Proof.
  unfold lex_gt_565. cbn.
  destruct (Z.eqb_spec major 5); [destruct (Z.eqb_spec minor 6);
    [destruct (Z.eqb_spec patchlevel 5)|]|];
  rewrite ?Z.gtb_ltb, ?Z.ltb_lt; try lia;
  split; (try discriminate); lia.
Qed.




(** ** Running [check] stage by stage *)

Lemma connect_run pc host port mysql_sock user password defaults_file db :
  pc (_connect_args host port mysql_sock user password defaults_file) = Ok db ->
  _connect pc host port mysql_sock user password defaults_file =
  Run [Connect (_connect_args host port mysql_sock user password defaults_file);
       LogDebug "Connected to MySQL" []] (Ok db).
Proof. intros C. unfold _connect, bind, lift. cbn. rewrite C. reflexivity. Qed.

(** Once connected, [check] is the gate followed by the rest of its body. *)
Lemma check_connected pc inst db :
  valid_config inst = true -> connection pc inst = Ok db ->
  check pc inst =
  Run ([Connect (connect_args_of inst); LogDebug "Connected to MySQL" []] ++
       trace (greater <- _version_greater_565 db (host_of inst) ;;
              if negb greater then raise (Exception version_required)
              else
                installed <- _is_mysql_sys_schema_installed db ;;
                if negb installed then raise (Exception not_installed)
                else _collect_metrics (host_of inst) db (i_tags inst) (options_of inst)))
      (outcome (greater <- _version_greater_565 db (host_of inst) ;;
              if negb greater then raise (Exception version_required)
              else
                installed <- _is_mysql_sys_schema_installed db ;;
                if negb installed then raise (Exception not_installed)
                else _collect_metrics (host_of inst) db (i_tags inst) (options_of inst))).
Proof.
  intros V C.
  unfold check, valid_config, connection, connect_args_of, port_of, converted_port,
    host_of, options_of, _get_config in *.
  destruct (int_of_scalar (dict_get (i_port inst) (SInt 0))) as [port|e];
    [|discriminate V].
  cbn [rbind] in *.
  rewrite negb_true_iff in V. rewrite V.
  rewrite (bind_run _ _ _ _ (connect_run _ _ _ _ _ _ _ _ C)).
  reflexivity.
Qed.

(** Past the gate, [check] is the schema test followed by metric collection. *)
Lemma check_past_gate pc inst db :
  valid_config inst = true -> connection pc inst = Ok db ->
  outcome (_version_greater_565 db (host_of inst)) = Ok true ->
  check pc inst =
  Run ([Connect (connect_args_of inst); LogDebug "Connected to MySQL" []] ++
       trace (_version_greater_565 db (host_of inst)) ++
       trace (installed <- _is_mysql_sys_schema_installed db ;;
              if negb installed then raise (Exception not_installed)
              else _collect_metrics (host_of inst) db (i_tags inst) (options_of inst)))
      (outcome (installed <- _is_mysql_sys_schema_installed db ;;
              if negb installed then raise (Exception not_installed)
              else _collect_metrics (host_of inst) db (i_tags inst) (options_of inst))).
Proof.
  intros V C G. rewrite (check_connected pc inst db V C).
  rewrite (bind_run (_version_greater_565 db (host_of inst)) _
             (trace (_version_greater_565 db (host_of inst))) true).
  - reflexivity.
  - rewrite <- G. apply run_eta.
Qed.

(** ** What the stages log and raise *)

Lemma float_of_dbval_raises v e :
  float_of_dbval v = Raise e -> e = ValueError \/ e = TypeError.
Proof.
  destruct v; cbn; [intros [= <-]; now right | | discriminate].
  intros P. left. exact (py_float_raises _ _ P).
Qed.

(** The gate runs one query and logs; it emits nothing. *)
Lemma gate_trace db host :
  exists logged,
    trace (_version_greater_565 db host) = Execute "SELECT VERSION()" :: logged /\
    forall a, In a logged ->
      match a with LogDebug _ _ | Warning _ _ => True | _ => False end.
Proof.
  rewrite gate_run.
  unfold _version_greater_565_try, _get_version, execute, bind, lift.
  destruct (db "SELECT VERSION()") as [code|rows]; cbn.
  { eexists; split; [reflexivity|]. intros a [<-|[]]; exact I. }
  destruct (first_column (fetchone rows)) as [v|e]; cbn.
  2:{ eexists; split; [reflexivity|]. intros a [<-|[]]; exact I. }
  destruct (as_str v) as [reported|e]; cbn.
  2:{ eexists; split; [reflexivity|]. intros a [<-|[]]; exact I. }
  destruct (version_fields reported) as [f|e]; cbn.
  2:{ eexists; split; [reflexivity|]. intros a [<-|[]]; exact I. }
  destruct (version_triple f) as [t|e]; cbn.
  - eexists; split; [reflexivity|]. intros a [<-|[]]; exact I.
  - eexists; split; [reflexivity|]. intros a [<-|[<-|[]]]; exact I.
Qed.

Lemma gate_no_metrics db host : metrics (trace (_version_greater_565 db host)) = [].
Proof.
  destruct (gate_trace db host) as (logged & -> & L). cbn.
  induction logged as [|a l IH]; [reflexivity|].
  cbn. pose proof (L a (or_introl eq_refl)) as La.
  destruct a; try contradiction; cbn; apply IH; intros b Hb; apply L; now right.
Qed.

Lemma gate_one_query db host q :
  In (Execute q) (trace (_version_greater_565 db host)) -> q = "SELECT VERSION()".
Proof.
  destruct (gate_trace db host) as (logged & -> & L).
  intros [[= <-]|H]; [reflexivity|]. destruct (L _ H).
Qed.

Lemma schema_run db rows :
  db schema_query = ResultSet rows ->
  _is_mysql_sys_schema_installed db =
  Run [Execute schema_query] (Ok (rowcount rows >? 0)).
Proof.
  intros Q. unfold _is_mysql_sys_schema_installed, execute, bind. cbn.
  rewrite Q. reflexivity.
Qed.

Lemma collect_metrics_wrong_count host db tags options rows :
  db percentile_query = ResultSet rows -> List.length rows <> 1%nat ->
  _collect_metrics host db tags options =
  Run [Execute percentile_query] (Raise (Exception fetch_failed)).
Proof.
  intros Q N.
  unfold _collect_metrics, _get_query_exec_time_95th_per_us, execute, bind. cbn.
  rewrite Q. cbn. unfold rowcount.
  destruct (Z.eqb_spec (Z.of_nat (List.length rows)) 1); [lia|reflexivity].
Qed.

Lemma collect_metrics_one_row host db tags options v columns x :
  db percentile_query = ResultSet [v :: columns] -> float_of_dbval v = Ok x ->
  _collect_metrics host db tags options =
  Run [Execute percentile_query;
       LogDebug "Collecting data with %s" [FStr "Ps_digest_95th_percentile_by_avg_us"];
       LogDebug "Collecting done, value %s" [FVal v];
       Gauge "mysql.sys.query_exec_time_95th_per_us" x tags]
      (Ok tt).
Proof.
  intros Q F.
  unfold _collect_metrics, _get_query_exec_time_95th_per_us, execute, bind. cbn.
  rewrite Q. cbn.
  unfold _collect_scalar, _collect_type, bind. cbn. rewrite F. reflexivity.
Qed.

Lemma collect_metrics_starts host db tags options :
  exists rest,
    trace (_collect_metrics host db tags options) = Execute percentile_query :: rest.
Proof.
  unfold _collect_metrics, _get_query_exec_time_95th_per_us, execute, bind. cbn.
  destruct (db percentile_query) as [code|rows]; cbn; [eauto|].
  destruct (negb (rowcount rows =? 1)); cbn; [eauto|].
  destruct (first_column (fetchone rows)); cbn; eauto.
Qed.

(** Metric collection raises the row-count error, a database error or a
    conversion error, never the message of another stage. *)
Lemma collect_metrics_raises host db tags options e :
  outcome (_collect_metrics host db tags options) = Raise e ->
  e = Exception fetch_failed \/ (exists code, e = MySQLError code) \/
  e = TypeError \/ e = IndexError \/ e = ValueError.
Proof.
  unfold _collect_metrics, _get_query_exec_time_95th_per_us, execute, bind. cbn.
  destruct (db percentile_query) as [code|rows]; cbn.
  { intros [= <-]. right; left. eauto. }
  destruct (negb (rowcount rows =? 1)); cbn.
  { intros [= <-]. now left. }
  destruct (first_column (fetchone rows)) as [v|e'] eqn:F; cbn.
  2:{ intros [= <-]. unfold first_column, getitem in F.
      destruct (fetchone rows) as [r|]; [|injection F as <-; tauto].
      destruct (nth_error r 0); [discriminate|injection F as <-; tauto]. }
  unfold _collect_scalar, _collect_type, bind. cbn.
  destruct (float_of_dbval v) as [x|e'] eqn:P; cbn; [discriminate|].
  intros [= <-]. destruct (float_of_dbval_raises _ _ P) as [-> | ->]; tauto.
Qed.

(** C9.  Past the version gate, a schema query that yields no row aborts
    the check with the error that points to the installation instructions
    before the percentile query is run; one that yields at least one row
    hands over to metric collection, and the check then ends as metric
    collection does.  The check ends with that error only when the schema
    query yielded no row. *)
Theorem schema_presence_gate pc inst db rows
    (V : valid_config inst = true) (C : connection pc inst = Ok db)
    (G : outcome (_version_greater_565 db (host_of inst)) = Ok true)
    (Q : db schema_query = ResultSet rows) :
  (rows = [] ->
     outcome (check pc inst) = Raise (Exception not_installed) /\
     metrics (trace (check pc inst)) = [] /\
     ~ In (Execute percentile_query) (trace (check pc inst))) /\
  (rows <> [] ->
     outcome (check pc inst) =
       outcome (_collect_metrics (host_of inst) db (i_tags inst) (options_of inst)) /\
     exists before,
       trace (check pc inst) =
       (before ++
        trace (_collect_metrics (host_of inst) db (i_tags inst) (options_of inst)))%list) /\
  (outcome (check pc inst) = Raise (Exception not_installed) <-> rows = []) /\
  contains "https://github.com/MarkLeith/mysql-sys" not_installed = true.
Proof.
  pose proof (check_past_gate pc inst db V C G) as R.
  rewrite (bind_run _ _ _ _ (schema_run db rows Q)) in R.
  assert (Z : rows = [] -> check pc inst =
            Run ([Connect (connect_args_of inst); LogDebug "Connected to MySQL" []] ++
                 trace (_version_greater_565 db (host_of inst)) ++
                 [Execute schema_query]) (Raise (Exception not_installed))).
  { intros ->. rewrite R. reflexivity. }
  assert (N : rows <> [] -> check pc inst =
            Run ([Connect (connect_args_of inst); LogDebug "Connected to MySQL" []] ++
                 trace (_version_greater_565 db (host_of inst)) ++
                 [Execute schema_query] ++
                 trace (_collect_metrics (host_of inst) db (i_tags inst) (options_of inst)))
                (outcome (_collect_metrics (host_of inst) db (i_tags inst) (options_of inst)))).
  { intros NE. rewrite R. destruct rows as [|r rows']; [contradiction|].
    replace (rowcount (r :: rows') >? 0) with true; [reflexivity|].
    unfold rowcount. symmetry. rewrite Z.gtb_ltb. apply Z.ltb_lt. cbn [List.length]. lia. }
  refine (conj _ (conj _ (conj (conj _ _) _))).
  - intros E. rewrite (Z E). cbn [outcome trace]. split; [reflexivity|]. split.
    + rewrite !metrics_app, gate_no_metrics. reflexivity.
    + rewrite !in_app_iff. intros [[[=]|[[=]|[]]]|[H|[[=]|[]]]].
      apply gate_one_query in H. discriminate H.
  - intros NE. rewrite (N NE). cbn [outcome trace]. split; [reflexivity|].
    eexists. rewrite !app_assoc. reflexivity.
  - intros O. destruct rows as [|r rows']; [reflexivity|].
    rewrite N in O by discriminate. cbn [outcome] in O.
    apply collect_metrics_raises in O.
    destruct O as [O|[(code & O)|[O|[O|O]]]]; discriminate O.
  - intros E. rewrite (Z E). reflexivity.
  - reflexivity.
Qed.

(** A 5.6.6 server whose [version] table holds one row. *)
Lemma schema_presence_gate_witness :
  let db : Db := fun q => ResultSet [[DStr "5.6.6"]] in
  let inst := Instance (Some "db1") (Some "agent") None None None None None None in
  exists before,
    trace (check (fun _ => Ok db) inst) =
    (before ++ trace (_collect_metrics "db1" db None []))%list.
Proof.
  intros db inst.
  refine (proj2 (proj1 (proj2
    (schema_presence_gate (fun _ => Ok db) inst db [[DStr "5.6.6"]]
       eq_refl eq_refl eq_refl eq_refl)) _)).
  discriminate.
Defined.

(** C5.  Once metric collection is reached, a percentile query that
    yields any number of rows other than one aborts the check with the
    row-count error and no metric is emitted; one row whose first column is
    123.45 makes the check emit the gauge
    mysql.sys.query_exec_time_95th_per_us with value 123.45 and the tags of
    the instance, and nothing else. *)
Theorem percentile_row_count pc inst db installed
    (V : valid_config inst = true) (C : connection pc inst = Ok db)
    (G : outcome (_version_greater_565 db (host_of inst)) = Ok true)
    (S : db schema_query = ResultSet installed) (I : installed <> []) :
  (forall rows,
     db percentile_query = ResultSet rows -> List.length rows <> 1%nat ->
     outcome (check pc inst) = Raise (Exception fetch_failed) /\
     metrics (trace (check pc inst)) = []) /\
  (forall columns,
     db percentile_query = ResultSet [DNum 123.45 :: columns] ->
     outcome (check pc inst) = Ok tt /\
     metrics (trace (check pc inst)) =
     [Gauge "mysql.sys.query_exec_time_95th_per_us" (Finite 123.45) (i_tags inst)]).
Proof.
  pose proof (check_past_gate pc inst db V C G) as R.
  rewrite (bind_run _ _ _ _ (schema_run db installed S)) in R.
  assert (P : (rowcount installed >? 0) = true).
  { destruct installed; [contradiction|]. unfold rowcount.
    rewrite Z.gtb_ltb. apply Z.ltb_lt. cbn [List.length]. lia. }
  rewrite P in R. cbn [negb] in R.
  split.
  - intros rows Q L.
    rewrite (collect_metrics_wrong_count _ db _ _ rows Q L) in R.
    rewrite R. cbn [outcome trace]. split; [reflexivity|].
    rewrite !metrics_app, gate_no_metrics. reflexivity.
  - intros columns Q.
    rewrite (collect_metrics_one_row _ db _ _ (DNum 123.45) columns (Finite 123.45) Q eq_refl) in R.
    rewrite R. cbn [outcome trace]. split; [reflexivity|].
    rewrite !metrics_app, gate_no_metrics. reflexivity.
Qed.

(** A 5.6.6 server with the sys schema whose percentile view holds 123.45. *)
Lemma percentile_row_count_witness :
  let db : Db := fun q =>
    if (q =? "SELECT VERSION()")%string then ResultSet [[DStr "5.6.6"]]
    else if (q =? schema_query)%string then ResultSet [[DStr "1.0.0"]]
    else ResultSet [[DNum 123.45]] in
  let inst :=
    Instance (Some "db1") (Some "agent") None None None None (Some ["env:test"]) None in
  metrics (trace (check (fun _ => Ok db) inst)) =
  [Gauge "mysql.sys.query_exec_time_95th_per_us" (Finite 123.45) (Some ["env:test"])].
Proof.
  intros db inst.
  refine (proj2 (proj2
    (percentile_row_count (fun _ => Ok db) inst db [[DStr "1.0.0"]]
       eq_refl eq_refl eq_refl eq_refl _) [] eq_refl)).
  discriminate.
Defined.

(** C6.  When the [try] block of the version gate raises, whatever the
    exception, the gate logs a warning that carries it and returns [False]:
    nothing propagates, and [check] aborts with the version error, the same
    abort as for a server whose version parses and is too old, without
    emitting a metric.  A failing version query and a major or minor
    segment that is not a number are such cases. *)
Theorem version_parse_failure_not_eligible pc inst db
    (V : valid_config inst = true) (C : connection pc inst = Ok db) :
  (forall e,
     outcome (_version_greater_565_try db (host_of inst)) = Raise e ->
     _version_greater_565 db (host_of inst) =
       Run (trace (_version_greater_565_try db (host_of inst)) ++
            [Warning "Cannot compute mysql version, assuming older than 5.6.5: %s"
               [FExn e]])
           (Ok false) /\
     outcome (check pc inst) = Raise (Exception version_required) /\
     metrics (trace (check pc inst)) = [] /\
     In (Warning "Cannot compute mysql version, assuming older than 5.6.5: %s"
           [FExn e])
        (trace (check pc inst))) /\
  (outcome (_version_greater_565_try db (host_of inst)) = Ok false ->
     outcome (check pc inst) = Raise (Exception version_required)) /\
  (forall code,
     db "SELECT VERSION()" = QueryFails code ->
     outcome (_version_greater_565_try db (host_of inst)) = Raise (MySQLError code)) /\
  (forall s e,
     reports db s -> parsed_version s = Raise e ->
     outcome (_version_greater_565_try db (host_of inst)) = Raise e) /\
  (forall s f segment,
     version_fields s = Ok f ->
     nth_error f 0 = Some segment \/ nth_error f 1 = Some segment ->
     py_int segment = Raise ValueError ->
     exists e, parsed_version s = Raise e).
Proof.
  pose proof (check_connected pc inst db V C) as R.
  refine (conj _ (conj _ (conj _ (conj _ _)))).
  - intros e F.
    assert (W : _version_greater_565 db (host_of inst) =
                Run (trace (_version_greater_565_try db (host_of inst)) ++
                     [Warning "Cannot compute mysql version, assuming older than 5.6.5: %s"
                        [FExn e]]) (Ok false)).
    { rewrite gate_run, F. reflexivity. }
    split; [exact W|].
    assert (WT : trace (_version_greater_565 db (host_of inst)) =
                 (trace (_version_greater_565_try db (host_of inst)) ++
                  [Warning "Cannot compute mysql version, assuming older than 5.6.5: %s"
                     [FExn e]])%list) by (rewrite W; reflexivity).
    rewrite (bind_run _ _ _ _ W) in R. cbn [negb raise trace outcome] in R.
    rewrite R. cbn [outcome trace]. split; [reflexivity|]. split.
    + rewrite <- WT, !metrics_app, gate_no_metrics. reflexivity.
    + cbn [app]. do 2 right. rewrite !in_app_iff. left. right. now left.
  - intros F.
    rewrite (bind_run (_version_greater_565 db (host_of inst)) _
               (trace (_version_greater_565 db (host_of inst))) false) in R.
    + rewrite R. reflexivity.
    + rewrite (run_eta (_version_greater_565 db (host_of inst))) at 1.
      rewrite gate_outcome, F. reflexivity.
  - intros code Q.
    unfold _version_greater_565_try, _get_version, execute, bind. cbn.
    rewrite Q. reflexivity.
  - intros s e P F. rewrite (try_outcome db _ s P), F. reflexivity.
  - intros s f segment F N I. unfold parsed_version. rewrite F. cbn [rbind].
    unfold version_triple, getitem.
    destruct N as [N|N].
    + rewrite N. cbn [rbind]. rewrite I. cbn. eauto.
    + destruct f as [|v0 f']; [discriminate N|]. cbn [nth_error rbind].
      destruct (py_int v0); cbn [rbind]; [|eauto].
      cbn [nth_error] in N. rewrite N. cbn [rbind]. rewrite I. cbn. eauto.
Qed.

(** A server on which [SELECT VERSION()] fails with error 1045. *)
Lemma version_parse_failure_not_eligible_witness :
  let db : Db := fun q => QueryFails 1045 in
  let inst := Instance (Some "db1") (Some "agent") None None None None None None in
  outcome (check (fun _ => Ok db) inst) = Raise (Exception version_required) /\
  outcome (_version_greater_565 db "db1") = Ok false.
Proof.
  intros db inst.
  pose proof (version_parse_failure_not_eligible (fun _ => Ok db) inst db
                eq_refl eq_refl) as (F & _).
  destruct (F (MySQLError 1045) eq_refl) as (W & O & _).
  split; [exact O | exact (f_equal outcome W)].
Defined.



End MySqlSysProps.




(* ===================================================================== *)
(** * Properties of the latency check                                     *)
(* ===================================================================== *)

Module LatencyProps.
Import Py PyFacts TCPRoundtripLatencyCheck.

(** Past validation, [check] is metric collection. *)
Lemma check_valid w inst :
  valid_config inst = true ->
  check w inst =
  _collect_metrics w (host_of inst) (port_of inst) (request_size_of inst)
    (response_size_of inst) (timeout_of inst) (i_tags inst)
    (md5_hexdigest (host_of inst)).
Proof.
  unfold valid_config, check, timeout_of, converted_timeout, incomplete, _get_config,
    host_of, port_of, request_size_of, response_size_of.
  destruct (float_of_scalar (dict_get (i_timeout inst) (SInt 5))) as [timeout|e];
    [|discriminate].
  cbn [rbind]. rewrite negb_true_iff. intros ->. reflexivity.
Qed.

(** A timeout entry [float] rejects ends [check] in [_get_config]. *)
Lemma check_timeout_rejected w inst e :
  converted_timeout inst = Raise e -> check w inst = Run [] (Raise e).
Proof.
  unfold check, converted_timeout, _get_config. intros ->. reflexivity.
Qed.

Lemma check_invalid w inst timeout :
  converted_timeout inst = Ok timeout -> incomplete inst = true ->
  check w inst = Run [] (Raise (Exception config_needed)).
Proof.
  unfold check, converted_timeout, incomplete, _get_config,
    host_of, port_of, request_size_of, response_size_of.
  intros -> I. cbn [rbind]. rewrite I. reflexivity.
Qed.

Lemma truthy_false s : truthy s = false <-> s = EmptyString.
Proof. destruct s; cbn; split; congruence. Qed.


Lemma wait_loop_completes w command timeout pid clock :
  forallb (fun now => negb (past_deadline w timeout now)) clock = true ->
  wait_loop w command timeout pid clock =
  Run (idle_turns clock ++ [Poll (Some (exit_code w)); ReadStdout])
      (Ok (stdout_text w)).
Proof.
  induction clock as [|now later IH]; intros D.
  - reflexivity.
  - cbn [forallb] in D. apply andb_true_iff in D as [N D].
    apply negb_true_iff in N.
    cbn [wait_loop]. rewrite N. unfold bind at 1 2. cbn [emit outcome trace].
    rewrite (IH D). reflexivity.
Qed.

Lemma popen_spawned w command pid :
  popen w (split " " command) = Spawned pid ->
  forall A (f : Z -> M A),
    bind (try_except
            (emit (Popen (split " " command)) ;;
             match popen w (split " " command) with
             | Spawned pid => ret pid
             | PopenRaises e => raise e
             end)
            isinstance_CalledProcessError
            (fun e =>
               match e with
               | CalledProcessError returncode output =>
                   raise (RuntimeError
                     ("Command '%s' failed. Return code: %s." ++ nl ++
                      "Output:" ++ nl ++ " %s.")
                     [FStr command; FInt returncode;
                      FStr (join (nl ++ " ") (splitlines output))])
               | _ => raise e
               end)) f =
    Run (Popen (split " " command) :: trace (f pid)) (outcome (f pid)).
Proof. intros P A f. rewrite P. reflexivity. Qed.

Lemma timeout_command_completes w command timeout pid :
  popen w (split " " command) = Spawned pid ->
  completes_in_time w timeout = true ->
  _timeout_command w command timeout =
  Run (Popen (split " " command) ::
       idle_turns (running_clock w) ++ [Poll (Some (exit_code w)); ReadStdout])
      (Ok (stdout_text w)).
Proof.
  intros P D. unfold _timeout_command.
  rewrite (popen_spawned w command pid P).
  rewrite (wait_loop_completes w command timeout pid _ D). reflexivity.
Qed.

Lemma collect_metrics_completed w host port request_size response_size timeout
    tags key t res :
  _timeout_command w (netperf_cmd host port request_size response_size) timeout =
    Run t (Ok res) ->
  _collect_metrics w host port request_size response_size timeout tags key =
  match parse_output res with
  | Ok x => Run (t ++ [Histogram "mysql.net.tcp_rt_latency" x tags]) (Ok tt)
  | Raise e => Run t (Raise e)
  end.
Proof.
  intros T. unfold _collect_metrics. rewrite T.
  unfold try_except, bind, lift. cbn.
  destruct (parse_output res); cbn; rewrite ?app_nil_r; reflexivity.
Qed.

Lemma collect_metrics_failed w host port request_size response_size timeout
    tags key t e :
  _timeout_command w (netperf_cmd host port request_size response_size) timeout =
    Run t (Raise e) ->
  _collect_metrics w host port request_size response_size timeout tags key =
  if isinstance_RuntimeError e then
    Run (t ++ trace (error_event w host e key)) (Ok tt)
  else if isinstance_Timeout e then
    Run (t ++ trace (timeout_event w host timeout key)) (Ok tt)
  else Run t (Raise e).
Proof.
  intros T. unfold _collect_metrics. rewrite T.
  unfold try_except, bind, lift. cbn.
  destruct (isinstance_RuntimeError e) eqn:R; cbn; [rewrite app_nil_r; reflexivity|].
  destruct (isinstance_Timeout e) eqn:O; cbn; [rewrite app_nil_r|]; reflexivity.
Qed.

Lemma idle_turns_no_metrics clock : metrics (idle_turns clock) = [].
Proof. induction clock as [|now later IH]; [reflexivity | exact IH]. Qed.

Lemma idle_turns_no_events clock : events (idle_turns clock) = [].
Proof. induction clock as [|now later IH]; [reflexivity | exact IH]. Qed.

(** When the command completes in time, [check] emits the histogram of the
    parsed output, or raises what the parsing raised and emits nothing. *)
Lemma check_completed w inst pid :
  valid_config inst = true ->
  popen w (argv_of inst) = Spawned pid ->
  completes_in_time w (timeout_of inst) = true ->
  check w inst =
  match parse_output (stdout_text w) with
  | Ok x =>
      Run ((Popen (argv_of inst) ::
            idle_turns (running_clock w) ++ [Poll (Some (exit_code w)); ReadStdout]) ++
           [Histogram "mysql.net.tcp_rt_latency" x (i_tags inst)]) (Ok tt)
  | Raise e =>
      Run (Popen (argv_of inst) ::
           idle_turns (running_clock w) ++ [Poll (Some (exit_code w)); ReadStdout])
          (Raise e)
  end.
Proof.
  intros V P D. rewrite (check_valid w inst V).
  apply collect_metrics_completed.
  exact (timeout_command_completes w (command_of inst) (timeout_of inst) pid P D).
Qed.






(** C4.  When the command completes in time and prints the one line
    TCP,667.240,785,970, the reader yields the four fields, [check] returns
    normally and emits exactly one metric, the histogram
    mysql.net.tcp_rt_latency with the value of [float] on the second field,
    667.240, and the tags of the instance; it emits no event. *)
Theorem single_csv_line_histogram w inst pid
    (V : valid_config inst = true)
    (P : popen w (argv_of inst) = Spawned pid)
    (D : completes_in_time w (timeout_of inst) = true)
    (O : stdout_text w = "TCP,667.240,785,970") :
  Csv.read_all [stdout_text w] = Ok [["TCP"; "667.240"; "785"; "970"]] /\
  py_float "667.240" = Ok (Finite 667.240) /\
  outcome (check w inst) = Ok tt /\
  metrics (trace (check w inst)) =
    [Histogram "mysql.net.tcp_rt_latency" (Finite 667.240) (i_tags inst)] /\
  events (trace (check w inst)) = [].
Proof.
  rewrite (check_completed w inst pid V P D), O.
  change (parse_output "TCP,667.240,785,970") with (Ok (Finite 667.240)).
  cbn [outcome trace].
  refine (conj eq_refl (conj eq_refl (conj eq_refl (conj _ _)))).
  - change (Popen (argv_of inst) :: ?l) with ([Popen (argv_of inst)] ++ l)%list.
    rewrite !metrics_app, idle_turns_no_metrics. reflexivity.
  - change (Popen (argv_of inst) :: ?l) with ([Popen (argv_of inst)] ++ l)%list.
    rewrite !events_app, idle_turns_no_events. reflexivity.
Qed.

(** A 512/256-byte probe of 192.168.10.10 whose netperf exits at once. *)
Lemma single_csv_line_histogram_witness :
  let w := Os (fun _ => Spawned 4242) 0 [100000; 200000] 0 (0, 0)
              "TCP,667.240,785,970" 1400000000 in
  let inst := Instance (Some "192.168.10.10") (Some 12865) (Some 512) (Some 256)
                (Some (SInt 1)) (Some ["role:db"]) None in
  metrics (trace (check w inst)) =
  [Histogram "mysql.net.tcp_rt_latency" (Finite 667.240) (Some ["role:db"])].
Proof.
  intros w inst.
  exact (proj1 (proj2 (proj2 (proj2
    (single_csv_line_histogram w inst 4242 eq_refl eq_refl eq_refl eq_refl))))).
Defined.

(** ** Reading rows one at a time and all at once *)

Lemma for_rows_collect lines :
  forall r pre rows,
    Csv.for_rows (fun rows r => Ok (rows ++ [r])%list) r lines pre = Ok rows ->
    exists new,
      rows = (pre ++ new)%list /\
      forall (S : Type) (body : S -> list string -> result S) (acc : S),
        Csv.for_rows body r lines acc = fold_rows body new acc.
Proof.
  induction lines as [|line rest IH]; intros r pre rows; cbn [Csv.for_rows].
  - destruct (negb _ || Csv.in_quoted_field r).
    + intros [= <-]. eexists; split; [reflexivity|].
      intros S body acc. cbn. destruct (body acc _); reflexivity.
    + intros [= <-]. exists []. split; [now rewrite app_nil_r|]. reflexivity.
  - destruct (Csv.feed_line r line) as [r'|e]; cbn [rbind]; [|discriminate].
    destruct (Csv.at_record_start r').
    + intros H. apply IH in H as (new & -> & B).
      exists (Csv.fields r' :: new). split; [now rewrite <- app_assoc|].
      intros S body acc. cbn. destruct (body acc (Csv.fields r')); cbn; [apply B|reflexivity].
    + intros H. apply IH in H as (new & -> & B). eauto.
Qed.

Lemma unpack_row_cases bound r :
  (List.length r <> 4%nat /\ unpack_row bound r = Raise ValueError) \/
  (List.length r = 4%nat /\ exists x, unpack_row bound r = Ok (Some x)).
Proof.
  destruct r as [|a [|b [|c [|d [|e r]]]]]; cbn;
    try (left; split; [lia | reflexivity]).
  right. split; [reflexivity | eauto].
Qed.

Lemma fold_unpack_short rows :
  (exists r, In r rows /\ List.length r <> 4%nat) ->
  forall bound, fold_rows unpack_row rows bound = Raise ValueError.
Proof.
  induction rows as [|r0 rest IH]; intros (r & I & L) bound; [destruct I|].
  cbn. destruct (unpack_row_cases bound r0) as [(_ & ->)|(L0 & x & ->)];
    [reflexivity|].
  cbn. apply IH. destruct I as [->|I]; [contradiction | eauto].
Qed.

(** Output that holds no row, or a row that has not exactly four fields,
    cannot be parsed. *)
Lemma parse_output_malformed res rows :
  Csv.read_all [res] = Ok rows ->
  rows = [] \/ (exists r, In r rows /\ List.length r <> 4%nat) ->
  parse_output res = Raise UnboundLocalError \/ parse_output res = Raise ValueError.
Proof.
  intros R B. unfold Csv.read_all in R.
  apply for_rows_collect in R as (new & -> & F).
  unfold parse_output. rewrite F. cbn [app] in B.
  destruct B as [->|B]; [now left|].
  right. rewrite (fold_unpack_short new B). reflexivity.
Qed.

(** C10.  When the command completes in time and its output cannot be
    parsed, [check] raises the exception of the parsing and emits neither a
    metric nor an event.  Output that yields no row, or a row whose number
    of fields is not four, is such output; empty output raises
    [ValueError]. *)
Theorem parse_failure_propagates w inst pid
    (V : valid_config inst = true)
    (P : popen w (argv_of inst) = Spawned pid)
    (D : completes_in_time w (timeout_of inst) = true) :
  (forall e,
     parse_output (stdout_text w) = Raise e ->
     outcome (check w inst) = Raise e /\
     metrics (trace (check w inst)) = [] /\
     events (trace (check w inst)) = []) /\
  (forall rows,
     Csv.read_all [stdout_text w] = Ok rows ->
     rows = [] \/ (exists r, In r rows /\ List.length r <> 4%nat) ->
     exists e,
       (e = UnboundLocalError \/ e = ValueError) /\
       outcome (check w inst) = Raise e /\
       metrics (trace (check w inst)) = [] /\
       events (trace (check w inst)) = []) /\
  (stdout_text w = EmptyString -> outcome (check w inst) = Raise ValueError).
Proof.
  assert (A : forall e,
            parse_output (stdout_text w) = Raise e ->
            outcome (check w inst) = Raise e /\
            metrics (trace (check w inst)) = [] /\
            events (trace (check w inst)) = []).
  { intros e F. rewrite (check_completed w inst pid V P D), F. cbn [outcome trace].
    split; [reflexivity|].
    change (Popen (argv_of inst) :: ?l) with ([Popen (argv_of inst)] ++ l)%list.
    rewrite !metrics_app, !events_app, idle_turns_no_metrics, idle_turns_no_events.
    split; reflexivity. }
  refine (conj A (conj _ _)).
  - intros rows R B.
    destruct (parse_output_malformed _ rows R B) as [F|F]; eexists; (split; [|exact (A _ F)]); tauto.
  - intros E. apply A. rewrite E. reflexivity.
Qed.

(** A netperf that exits at once and prints two fields only. *)
Lemma parse_failure_propagates_witness :
  let w := Os (fun _ => Spawned 4242) 0 [] 0 (0, 0) "TCP,667.240" 1400000000 in
  let inst := Instance (Some "192.168.10.10") (Some 12865) (Some 512) (Some 256)
                None None None in
  outcome (check w inst) = Raise ValueError /\
  metrics (trace (check w inst)) = [] /\ events (trace (check w inst)) = [].
Proof.
  intros w inst.
  exact (proj1 (parse_failure_propagates w inst 4242 eq_refl eq_refl eq_refl)
           ValueError eq_refl).
Defined.

(** ** The deadline *)

Lemma completes_or_detects w timeout clock :
  forallb (fun now => negb (past_deadline w timeout now)) clock =
  negb (existsb (past_deadline w timeout) clock).
Proof.
  induction clock as [|now later IH]; [reflexivity|].
  cbn. rewrite IH, negb_orb. reflexivity.
Qed.

(** When a reading is past the deadline, the loop ends at the first such
    reading: it kills the child, calls [waitpid] once without blocking and
    raises the timeout. *)
Lemma wait_loop_times_out w command (timeout : Q) pid clock :
  existsb (past_deadline w (Finite timeout)) clock = true ->
  exists earlier,
    wait_loop w command (Finite timeout) pid clock =
    Run (idle_turns earlier ++
         [Poll None; Sleep (1 # 10); Kill pid SIGKILL;
          Waitpid (-1) WNOHANG (waitpid_result w)])
        (Raise (TCPRoundtripLatencyCheckTimeout
                  "The command '%s' timed out after %d seconds"
                  [FStr command; FFloat (Finite timeout)])).
Proof.
  induction clock as [|now later IH]; intros E; [discriminate E|].
  cbn [wait_loop]. destruct (past_deadline w (Finite timeout) now) eqn:N.
  - exists []. reflexivity.
  - cbn [existsb] in E. rewrite N in E. cbn [orb] in E.
    destruct (IH E) as (earlier & ->). exists (now :: earlier). reflexivity.
Qed.

Lemma idle_turns_harmless pid clock :
  killed pid (idle_turns clock) = false /\ reaped pid (idle_turns clock) = false.
Proof. induction clock as [|now later IH]; [split; reflexivity | exact IH]. Qed.

Lemma timeout_command_times_out w command (timeout : Q) pid :
  popen w (split " " command) = Spawned pid ->
  completes_in_time w (Finite timeout) = false ->
  exists earlier,
    _timeout_command w command (Finite timeout) =
    Run ((Popen (split " " command) :: idle_turns earlier ++ [Poll None; Sleep (1 # 10)]) ++
         [Kill pid SIGKILL; Waitpid (-1) WNOHANG (waitpid_result w)])
        (Raise (TCPRoundtripLatencyCheckTimeout
                  "The command '%s' timed out after %d seconds"
                  [FStr command; FFloat (Finite timeout)])).
Proof.
  intros P D. unfold completes_in_time in D.
  rewrite completes_or_detects, negb_false_iff in D.
  destruct (wait_loop_times_out w command timeout pid _ D) as (earlier & W).
  exists earlier. unfold _timeout_command.
  rewrite (popen_spawned w command pid P), W. cbn [trace outcome app].
  rewrite <- app_assoc. reflexivity.
Qed.

(** With a finite timeout, [_timeout_command] signals the timeout exactly
    when a turn of the wait loop finds the deadline passed.  It has then
    sent SIGKILL to the child and made one call of [waitpid] with
    [WNOHANG], in this order, as the last two things before raising; the
    result of that call is not looked at, and the child has been reaped by
    then exactly when the call returned its process id. *)
Lemma timeout_after_kill_and_reap_attempt w command (timeout : Q) pid
    (P : popen w (split " " command) = Spawned pid) :
  (is_timeout (outcome (_timeout_command w command (Finite timeout))) = true <->
   existsb (past_deadline w (Finite timeout)) (running_clock w) = true) /\
  (is_timeout (outcome (_timeout_command w command (Finite timeout))) = true ->
   (exists before,
      trace (_timeout_command w command (Finite timeout)) =
      (before ++ [Kill pid SIGKILL; Waitpid (-1) WNOHANG (waitpid_result w)])%list /\
      killed pid before = false /\ reaped pid before = false) /\
   killed pid (trace (_timeout_command w command (Finite timeout))) = true /\
   (reaped pid (trace (_timeout_command w command (Finite timeout))) = true <->
    fst (waitpid_result w) = pid)).
Proof.
  destruct (completes_in_time w (Finite timeout)) eqn:D.
  - rewrite (timeout_command_completes w command (Finite timeout) pid P D).
    cbn [outcome is_timeout].
    unfold completes_in_time in D. rewrite completes_or_detects, negb_true_iff in D.
    rewrite D. split; [split|]; discriminate.
  - destruct (timeout_command_times_out w command timeout pid P D) as (earlier & ->).
    cbn [outcome trace is_timeout].
    unfold completes_in_time in D. rewrite completes_or_detects, negb_false_iff in D.
    split; [tauto|]. intros _.
    assert (H : killed pid (Popen (split " " command) ::
                            idle_turns earlier ++ [Poll None; Sleep (1 # 10)]) = false /\
                reaped pid (Popen (split " " command) ::
                            idle_turns earlier ++ [Poll None; Sleep (1 # 10)]) = false).
    { unfold killed, reaped. cbn [existsb kills reaps orb].
      rewrite !existsb_app.
      destruct (idle_turns_harmless pid earlier) as (K & R).
      unfold killed, reaped in K, R. rewrite K, R. split; reflexivity. }
    destruct H as (K & R).
    split; [eexists; split; [reflexivity | split; assumption]|].
    unfold killed, reaped in *. rewrite !existsb_app, K, R.
    cbn [existsb kills reaps orb]. rewrite Z.eqb_refl. split; [reflexivity|].
    destruct (waitpid_result w) as [reaped_pid status]. cbn [fst].
    rewrite orb_false_r. apply Z.eqb_eq.
Qed.

(** A child that is still running two seconds after a timeout of one. *)
Lemma timeout_after_kill_and_reap_attempt_witness :
  let w := Os (fun _ => Spawned 4242) 0 [2100000] 0 (4242, 9) EmptyString 1400000000 in
  is_timeout (outcome (_timeout_command w "sleep 10" (Finite 1))) = true /\
  reaped 4242 (trace (_timeout_command w "sleep 10" (Finite 1))) = true.
Proof.
  intros w.
  pose proof (timeout_after_kill_and_reap_attempt w "sleep 10" 1 4242 eq_refl)
    as (T & K).
  split; [exact (proj2 T eq_refl)|].
  exact (proj2 (proj2 (proj2 (K (proj2 T eq_refl)))) eq_refl).
Defined.

(** The invariant does not hold of the code: [waitpid] is called with
    [WNOHANG], so it returns (0, 0) when the killed child has not changed
    state yet, and the timeout is raised all the same. *)
Lemma timeout_signalled_unreaped : ~ timeout_only_after_kill_and_reap.
Proof.
  intros H.
  pose (w := Os (fun _ => Spawned 4242) 0 [2100000] 0 (0, 0) EmptyString 1400000000).
  destruct (H w "sleep 10" (Finite 1) 4242 eq_refl eq_refl) as (_ & R).
  discriminate R.
Qed.

(** C2, on the code.  Lines 106-107 kill the child and call [waitpid] to
    reap it, but with [WNOHANG] and without looking at what it returns.  A
    child that is still running 2.1 seconds after the start, against a
    timeout of 1, is sent SIGKILL; [waitpid] returns (0, 0) because the
    child has not changed state yet; the timeout is raised, and the child
    has not been reaped. *)
Theorem timeout_raised_with_child_unreaped :
  let w := Os (fun _ => Spawned 4242) 0 [2100000] 0 (0, 0) EmptyString 1400000000 in
  _timeout_command w "sleep 10" (Finite 1) =
    Run [Popen ["sleep"; "10"]; Poll None; Sleep (1 # 10); Kill 4242 SIGKILL;
         Waitpid (-1) WNOHANG (0, 0)]
        (Raise (TCPRoundtripLatencyCheckTimeout
                  "The command '%s' timed out after %d seconds"
                  [FStr "sleep 10"; FFloat (Finite 1)])) /\
  killed 4242 (trace (_timeout_command w "sleep 10" (Finite 1))) = true /\
  reaped 4242 (trace (_timeout_command w "sleep 10" (Finite 1))) = false.
Proof. cbv zeta. repeat split. Qed.

(** ** Failures of the command *)

Lemma timeout_command_spawn_fails w command timeout e :
  popen w (split " " command) = PopenRaises e ->
  isinstance_CalledProcessError e = false ->
  _timeout_command w command timeout = Run [Popen (split " " command)] (Raise e).
Proof.
  intros P I. unfold _timeout_command, try_except, bind. cbn -[append].
  rewrite P. cbn -[append]. rewrite I. reflexivity.
Qed.

(** C3, on the code.  [subprocess.Popen] reports a command that cannot be
    launched with [OSError]; the handler of [_timeout_command] names
    [CalledProcessError], and [_collect_metrics] handles [RuntimeError] and
    the timeout only.  So a spawn failure leaves [check] as the [OSError]
    itself, with no event; and a command that exits abnormally without
    output leaves it as the [ValueError] of the unpacking, with no event
    either. *)
Theorem spawn_failure_escapes w inst (V : valid_config inst = true) :
  (forall errno,
     popen w (argv_of inst) = PopenRaises (OSError errno) ->
     check w inst = Run [Popen (argv_of inst)] (Raise (OSError errno))) /\
  (forall pid,
     popen w (argv_of inst) = Spawned pid ->
     completes_in_time w (timeout_of inst) = true ->
     exit_code w <> 0 -> stdout_text w = EmptyString ->
     outcome (check w inst) = Raise ValueError /\
     events (trace (check w inst)) = []).
Proof.
  split.
  - intros errno P. rewrite (check_valid w inst V).
    rewrite (collect_metrics_failed _ _ _ _ _ _ _ _ _ _
               (timeout_command_spawn_fails w (command_of inst) (timeout_of inst)
                  (OSError errno) P eq_refl)).
    reflexivity.
  - intros pid P D _ E.
    rewrite (check_completed w inst pid V P D), E.
    change (parse_output EmptyString) with (@Raise pyfloat ValueError).
    cbn [outcome trace]. split; [reflexivity|].
    change (Popen (argv_of inst) :: ?l) with ([Popen (argv_of inst)] ++ l)%list.
    rewrite !events_app, idle_turns_no_events. reflexivity.
Qed.

(** A host on which /usr/bin/netperf does not exist: errno 2. *)
Lemma spawn_failure_escapes_witness :
  let w := Os (fun _ => PopenRaises (OSError 2)) 0 [] 0 (0, 0) EmptyString 1400000000 in
  let inst := Instance (Some "192.168.10.10") (Some 12865) (Some 512) (Some 256)
                None None None in
  outcome (check w inst) = Raise (OSError 2) /\ events (trace (check w inst)) = [].
Proof.
  intros w inst.
  rewrite (proj1 (spawn_failure_escapes w inst eq_refl) 2 eq_refl).
  split; reflexivity.
Defined.




(** A timeout entry of minus infinity: the first turn of the loop kills
    the child, and the [%d] of the message raises [OverflowError], which
    leaves [check] with no event. *)
Lemma minus_infinity_timeout_escapes :
  let w := Os (fun _ => Spawned 4242) 0 [100000] 0 (0, 0) EmptyString 1400000000 in
  let inst := Instance (Some "192.168.10.10") (Some 12865) (Some 512) (Some 256)
                (Some (SStr "-inf")) None None in
  valid_config inst = true /\
  timeout_of inst = Infinity true /\
  completes_in_time w (timeout_of inst) = false /\
  check w inst =
    Run [Popen (argv_of inst); Poll None; Sleep (1 # 10); Kill 4242 SIGKILL;
         Waitpid (-1) WNOHANG (0, 0)]
        (Raise OverflowError).
Proof. cbv zeta. repeat split. Qed.

(** An exception that is a [RuntimeError] becomes one error event. *)
Lemma called_process_error_becomes_event w inst returncode output :
  valid_config inst = true ->
  popen w (argv_of inst) = PopenRaises (CalledProcessError returncode output) ->
  outcome (check w inst) = Ok tt /\
  metrics (trace (check w inst)) = [] /\
  exists text,
    events (trace (check w inst)) =
    [Event {|
       timestamp := time_time w;
       event_type := "mysql_tcp_rt_latency_check";
       msg_title :=
         ("MySQL host %s to remote host RT latency command returned invalid code",
          [FStr (host_of inst)]);
       msg_text := ("%s", [FExn text]);
       aggregation_key := md5_hexdigest (host_of inst) |}].
Proof.
  intros V P. rewrite (check_valid w inst V).
  unfold _collect_metrics, _timeout_command. fold (command_of inst). fold (argv_of inst).
  rewrite P. unfold try_except, bind. cbn -[append].
  split; [reflexivity|]. split; [reflexivity|]. eauto.
Qed.

End LatencyProps.

(* ===================================================================== *)
(** * Further properties of the MySQL check                               *)
(* ===================================================================== *)

Module MySqlSysMore.
Import Py PyFacts MySqlSys.

Lemma executed_app t1 t2 : executed (t1 ++ t2) = (executed t1 ++ executed t2)%list.
Proof.
  induction t1 as [|a t1 IH]; [reflexivity|].
  destruct a; cbn; rewrite ?IH; reflexivity.
Qed.

(** The three ways metric collection ends. *)
Lemma collect_paths host db tags options :
  (exists e,
     _collect_metrics host db tags options =
     Run [Execute percentile_query] (Raise e)) \/
  (exists v e,
     float_of_dbval v = Raise e /\
     _collect_metrics host db tags options =
     Run [Execute percentile_query;
          LogDebug "Collecting data with %s" [FStr "Ps_digest_95th_percentile_by_avg_us"];
          LogDebug "Collecting done, value %s" [FVal v]] (Raise e)) \/
  (exists v x,
     float_of_dbval v = Ok x /\
     _collect_metrics host db tags options =
     Run [Execute percentile_query;
          LogDebug "Collecting data with %s" [FStr "Ps_digest_95th_percentile_by_avg_us"];
          LogDebug "Collecting done, value %s" [FVal v];
          Gauge "mysql.sys.query_exec_time_95th_per_us" x tags] (Ok tt)).
Proof.
  unfold _collect_metrics, _get_query_exec_time_95th_per_us, execute, bind. cbn.
  destruct (db percentile_query) as [code|rows]; cbn; [left; eauto|].
  destruct (negb (rowcount rows =? 1)); cbn; [left; eauto|].
  destruct (first_column (fetchone rows)) as [v|e]; cbn; [|left; eauto].
  unfold _collect_scalar, _collect_type, bind. cbn.
  destruct (float_of_dbval v) as [x|e] eqn:F; cbn; right; [right|left]; eauto.
Qed.

Lemma gate_no_events db host : events (trace (_version_greater_565 db host)) = [].
Proof.
  rewrite MySqlSysProps.gate_run.
  unfold _version_greater_565_try, _get_version, execute, bind, lift.
  destruct (db "SELECT VERSION()") as [code|rows]; cbn; [reflexivity|].
  destruct (first_column (fetchone rows)) as [v|e]; cbn; [|reflexivity].
  destruct (as_str v) as [reported|e]; cbn; [|reflexivity].
  destruct (version_fields reported) as [f|e]; cbn; [|reflexivity].
  destruct (version_triple f) as [t|e]; reflexivity.
Qed.

Lemma gate_executed db host :
  executed (trace (_version_greater_565 db host)) = ["SELECT VERSION()"].
Proof.
  rewrite MySqlSysProps.gate_run.
  unfold _version_greater_565_try, _get_version, execute, bind, lift.
  destruct (db "SELECT VERSION()") as [code|rows]; cbn; [reflexivity|].
  destruct (first_column (fetchone rows)) as [v|e]; cbn; [|reflexivity].
  destruct (as_str v) as [reported|e]; cbn; [|reflexivity].
  destruct (version_fields reported) as [f|e]; cbn; [|reflexivity].
  destruct (version_triple f) as [t|e]; reflexivity.
Qed.

Lemma gate_returns db host :
  outcome (_version_greater_565 db host) = Ok true \/
  outcome (_version_greater_565 db host) = Ok false.
Proof.
  rewrite MySqlSysProps.gate_outcome.
  destruct (outcome (_version_greater_565_try db host)) as [[|]|e]; tauto.
Qed.

(** A port entry [int] rejects ends [check] in [_get_config]. *)
Lemma check_port_rejected pc inst e :
  converted_port inst = Raise e -> check pc inst = Run [] (Raise e).
Proof.
  unfold check, converted_port, _get_config. intros ->. reflexivity.
Qed.

Lemma check_not_valid pc inst port :
  converted_port inst = Ok port -> valid_config inst = false ->
  check pc inst = Run [] (Raise (Exception host_and_user_needed)).
Proof.
  unfold valid_config, check, converted_port, _get_config. intros ->. cbn [rbind].
  rewrite negb_false_iff. intros ->. reflexivity.
Qed.

Lemma check_connect_fails pc inst e :
  valid_config inst = true -> connection pc inst = Raise e ->
  check pc inst = Run [Connect (connect_args_of inst)] (Raise e).
Proof.
  unfold valid_config, check, connection, connect_args_of, port_of, converted_port,
    _get_config.
  destruct (int_of_scalar (dict_get (i_port inst) (SInt 0))) as [port|e'];
    [|discriminate].
  cbn [rbind]. rewrite negb_true_iff. intros -> C.
  unfold _connect, bind, lift. cbn. rewrite C. reflexivity.
Qed.

Lemma schema_fails db code :
  db schema_query = QueryFails code ->
  _is_mysql_sys_schema_installed db =
  Run [Execute schema_query] (Raise (MySQLError code)).
Proof.
  intros Q. unfold _is_mysql_sys_schema_installed, execute, bind. cbn.
  rewrite Q. reflexivity.
Qed.

(** Every way [check] ends, with what it has done by then. *)
Lemma check_paths pc inst :
  (exists e, check pc inst = Run [] (Raise e)) \/
  (exists e, check pc inst = Run [Connect (connect_args_of inst)] (Raise e)) \/
  exists db,
    let connected :=
      ([Connect (connect_args_of inst); LogDebug "Connected to MySQL" []] ++
       trace (_version_greater_565 db (host_of inst)))%list in
    check pc inst = Run connected (Raise (Exception version_required)) \/
    (exists e,
       check pc inst = Run (connected ++ [Execute schema_query]) (Raise e)) \/
    check pc inst =
      Run (connected ++ [Execute schema_query] ++
           trace (_collect_metrics (host_of inst) db (i_tags inst) (options_of inst)))
          (outcome (_collect_metrics (host_of inst) db (i_tags inst) (options_of inst))).
Proof.
  destruct (converted_port inst) as [port|e] eqn:K;
    [|left; exists e; now apply check_port_rejected].
  destruct (valid_config inst) eqn:V;
    [|left; eexists; now apply (check_not_valid pc inst port)].
  right. destruct (connection pc inst) as [db|e] eqn:C;
    [|left; exists e; now apply check_connect_fails].
  right. exists db. cbn zeta.
  destruct (gate_returns db (host_of inst)) as [G|G].
  - pose proof (MySqlSysProps.check_past_gate pc inst db V C G) as R.
    destruct (db schema_query) as [code|rows] eqn:Q.
    + right; left. exists (MySQLError code).
      rewrite (bind_raises _ _ _ _ (schema_fails db code Q)) in R.
      rewrite R, <- app_assoc. reflexivity.
    + rewrite (bind_run _ _ _ _ (MySqlSysProps.schema_run db rows Q)) in R.
      destruct (rowcount rows >? 0); cbn [negb] in R.
      * right; right. rewrite R, <- !app_assoc. reflexivity.
      * right; left. exists (Exception not_installed).
        rewrite R, <- app_assoc. reflexivity.
  - left. rewrite (MySqlSysProps.check_connected pc inst db V C).
    rewrite (bind_run (_version_greater_565 db (host_of inst)) _
               (trace (_version_greater_565 db (host_of inst))) false).
    + cbn. rewrite app_nil_r. reflexivity.
    + rewrite <- G. apply run_eta.
Qed.

(** X2.  [_get_config] first converts the port entry with [int]: when that
    fails, [check] raises the conversion's exception having done nothing.
    When the port converts, [check] raises the host-and-user error having
    done nothing else exactly when the defaults file is empty and the host
    or the user is empty, and in every other case the first thing it does
    is the [pymysql.connect] call. *)
Theorem mysql_config_error_iff pc inst :
  (forall e, converted_port inst = Raise e -> check pc inst = Run [] (Raise e)) /\
  (forall port, converted_port inst = Ok port ->
     (check pc inst = Run [] (Raise (Exception host_and_user_needed)) <->
      ((host_of inst = EmptyString \/ user_of inst = EmptyString) /\
       defaults_file_of inst = EmptyString)) /\
     (~ ((host_of inst = EmptyString \/ user_of inst = EmptyString) /\
         defaults_file_of inst = EmptyString) ->
      exists rest, trace (check pc inst) = Connect (connect_args_of inst) :: rest)).
Proof.
  split; [intros e K; now apply check_port_rejected|].
  intros port K.
  assert (F : valid_config inst = false <->
              ((host_of inst = EmptyString \/ user_of inst = EmptyString) /\
               defaults_file_of inst = EmptyString)).
  { revert K. unfold valid_config, converted_port, host_of, user_of, defaults_file_of,
      _get_config. intros ->. cbn [rbind].
    rewrite negb_false_iff, andb_true_iff, orb_true_iff, !negb_true_iff.
    rewrite !LatencyProps.truthy_false. tauto. }
  assert (S : valid_config inst = true ->
              exists rest, trace (check pc inst) = Connect (connect_args_of inst) :: rest).
  { intros V. destruct (connection pc inst) as [db|e] eqn:C.
    - rewrite (MySqlSysProps.check_connected pc inst db V C). cbn [trace app]. eauto.
    - rewrite (check_connect_fails pc inst e V C). cbn [trace]. eauto. }
  split.
  - rewrite <- F. split.
    + intros E. destruct (valid_config inst); [|reflexivity].
      destruct (S eq_refl) as (rest & T). rewrite E in T. discriminate T.
    + apply (check_not_valid pc inst port K).
  - rewrite <- F. intros N. apply S.
    destruct (valid_config inst); [reflexivity | contradiction].
Qed.

(** A concrete run of both halves: a port entry that is not a number, and
    a complete configuration. *)
Lemma mysql_config_error_iff_witness :
  check (fun _ => Raise (MySQLError 2003))
        (Instance (Some "db1") (Some "monitor") (Some (SStr "tcp")) None None None None None)
    = Run [] (Raise ValueError).
Proof.
  apply (proj1 (mysql_config_error_iff (fun _ => Raise (MySQLError 2003))
    (Instance (Some "db1") (Some "monitor") (Some (SStr "tcp")) None None None None None))).
  reflexivity.
Defined.

(** X3.  When [pymysql.connect] raises, [check] raises the same exception
    having made that one call: no query is run and nothing is emitted. *)
Theorem connection_failure_propagates pc inst e
    (V : valid_config inst = true) (C : connection pc inst = Raise e) :
  outcome (check pc inst) = Raise e /\
  trace (check pc inst) = [Connect (connect_args_of inst)] /\
  executed (trace (check pc inst)) = [] /\
  metrics (trace (check pc inst)) = [].
Proof.
  rewrite (check_connect_fails pc inst e V C). repeat split.
Qed.

(** A server that refuses the connection with error 2003. *)
Lemma connection_failure_propagates_witness :
  let inst := Instance (Some "db1") (Some "agent") (Some (SInt 3306)) None None None None None in
  outcome (check (fun _ => Raise (MySQLError 2003)) inst) = Raise (MySQLError 2003).
Proof.
  intros inst.
  exact (proj1 (connection_failure_propagates
                  (fun _ => Raise (MySQLError 2003)) inst (MySQLError 2003)
                  eq_refl eq_refl)).
Defined.

(** X4.  Whatever the configuration and the server, [check] emits no
    event, and it either returns normally having emitted exactly one
    metric, the gauge mysql.sys.query_exec_time_95th_per_us with the tags of
    the instance, or raises having emitted no metric at all. *)
Theorem one_gauge_or_an_exception pc inst :
  events (trace (check pc inst)) = [] /\
  ((outcome (check pc inst) = Ok tt /\
    exists x,
      metrics (trace (check pc inst)) =
      [Gauge "mysql.sys.query_exec_time_95th_per_us" x (i_tags inst)]) \/
   ((exists e, outcome (check pc inst) = Raise e) /\
    metrics (trace (check pc inst)) = [])).
Proof.
  destruct (check_paths pc inst) as [(e & R)|[(e & R)|(db & [R|[(e & R)|R]])]];
    rewrite R; cbn [outcome trace].
  - split; [reflexivity|]. right. eauto.
  - split; [reflexivity|]. right. eauto.
  - rewrite events_app, metrics_app, gate_no_events, MySqlSysProps.gate_no_metrics.
    split; [reflexivity|]. right. eauto.
  - rewrite !events_app, !metrics_app, gate_no_events, MySqlSysProps.gate_no_metrics.
    split; [reflexivity|]. right. eauto.
  - rewrite !events_app, !metrics_app, gate_no_events, MySqlSysProps.gate_no_metrics.
    destruct (collect_paths (host_of inst) db (i_tags inst) (options_of inst))
      as [(e & ->)|[(v & e & _ & ->)|(v & x & _ & ->)]]; cbn [outcome trace];
      (split; [reflexivity|]).
    + right. split; [exists e|]; reflexivity.
    + right. split; [exists e|]; reflexivity.
    + left. split; [|exists x]; reflexivity.
Qed.

(** X5.  The queries [check] runs are, in this order, the version query,
    the schema query and the percentile query, or a beginning of that
    sequence: no query is run twice, none out of turn and no other. *)
Theorem queries_in_order pc inst :
  exists remaining,
    (executed (trace (check pc inst)) ++ remaining)%list =
    ["SELECT VERSION()"; schema_query; percentile_query].
Proof.
  destruct (check_paths pc inst) as [(e & R)|[(e & R)|(db & [R|[(e & R)|R]])]];
    rewrite R; cbn [outcome trace].
  - eexists. reflexivity.
  - eexists. reflexivity.
  - rewrite executed_app, gate_executed. eexists. reflexivity.
  - rewrite !executed_app, gate_executed. eexists. reflexivity.
  - rewrite !executed_app, gate_executed.
    destruct (collect_paths (host_of inst) db (i_tags inst) (options_of inst))
      as [(e & ->)|[(v & e & _ & ->)|(v & x & _ & ->)]]; cbn [outcome trace];
      exists []; reflexivity.
Qed.

(** X6.  Unlike a failure of the version query, a database error on the
    schema query or on the percentile query is not absorbed: [check] raises
    it unchanged and emits no metric. *)
Theorem query_failure_propagates pc inst db code
    (V : valid_config inst = true) (C : connection pc inst = Ok db)
    (G : outcome (_version_greater_565 db (host_of inst)) = Ok true) :
  (db schema_query = QueryFails code ->
   outcome (check pc inst) = Raise (MySQLError code) /\
   metrics (trace (check pc inst)) = [] /\
   executed (trace (check pc inst)) = ["SELECT VERSION()"; schema_query]) /\
  (forall row rows,
     db schema_query = ResultSet (row :: rows) ->
     db percentile_query = QueryFails code ->
     outcome (check pc inst) = Raise (MySQLError code) /\
     metrics (trace (check pc inst)) = []).
Proof.
  pose proof (MySqlSysProps.check_past_gate pc inst db V C G) as R. split.
  - intros Q. rewrite (bind_raises _ _ _ _ (schema_fails db code Q)) in R.
    rewrite R. cbn [outcome trace]. split; [reflexivity|].
    change (Connect ?a :: ?l) with ([Connect a] ++ l)%list.
    rewrite !metrics_app, !executed_app, MySqlSysProps.gate_no_metrics, gate_executed.
    split; reflexivity.
  - intros row rows Q P.
    rewrite (bind_run _ _ _ _ (MySqlSysProps.schema_run db _ Q)) in R.
    replace (rowcount (row :: rows) >? 0) with true in R.
    2:{ unfold rowcount. symmetry. rewrite Z.gtb_ltb. apply Z.ltb_lt.
        cbn [List.length]. lia. }
    cbn [negb] in R.
    assert (M : _collect_metrics (host_of inst) db (i_tags inst) (options_of inst) =
                Run [Execute percentile_query] (Raise (MySQLError code))).
    { unfold _collect_metrics, _get_query_exec_time_95th_per_us, execute, bind. cbn.
      rewrite P. reflexivity. }
    rewrite M in R. rewrite R. cbn [outcome trace]. split; [reflexivity|].
    change (Connect ?a :: ?l) with ([Connect a] ++ l)%list.
    rewrite !metrics_app, MySqlSysProps.gate_no_metrics. reflexivity.
Qed.

(** A 5.6.6 server without the sys schema: the [version] table is unknown. *)
Lemma query_failure_propagates_witness :
  let db : Db := fun q =>
    if (q =? "SELECT VERSION()")%string then ResultSet [[DStr "5.6.6"]]
    else QueryFails 1146 in
  let inst := Instance (Some "db1") (Some "agent") None None None None None None in
  outcome (check (fun _ => Ok db) inst) = Raise (MySQLError 1146).
Proof.
  intros db inst.
  exact (proj1 (proj1 (query_failure_propagates (fun _ => Ok db) inst db 1146
                         eq_refl eq_refl eq_refl) eq_refl)).
Defined.

(** X7.  Past the schema test, with one row in the percentile view,
    [check] emits [float] of the first column of that row, whatever the
    value: a number as it is, a string through [float]; a value [float]
    cannot convert (NULL, a string that is no number) makes [check] raise
    the conversion error and emit nothing. *)
Theorem percentile_value_conversion pc inst db installed v columns
    (V : valid_config inst = true) (C : connection pc inst = Ok db)
    (G : outcome (_version_greater_565 db (host_of inst)) = Ok true)
    (S : db schema_query = ResultSet installed) (I : installed <> [])
    (Q : db percentile_query = ResultSet [v :: columns]) :
  (forall x,
     float_of_dbval v = Ok x ->
     outcome (check pc inst) = Ok tt /\
     metrics (trace (check pc inst)) =
     [Gauge "mysql.sys.query_exec_time_95th_per_us" x (i_tags inst)]) /\
  (forall e,
     float_of_dbval v = Raise e ->
     outcome (check pc inst) = Raise e /\ metrics (trace (check pc inst)) = []) /\
  (forall q, v = DNum q -> float_of_dbval v = Ok (Finite q)) /\
  (v = DNull -> float_of_dbval v = Raise TypeError).
Proof.
  pose proof (MySqlSysProps.check_past_gate pc inst db V C G) as R.
  rewrite (bind_run _ _ _ _ (MySqlSysProps.schema_run db installed S)) in R.
  assert (P : (rowcount installed >? 0) = true).
  { destruct installed; [contradiction|]. unfold rowcount.
    rewrite Z.gtb_ltb. apply Z.ltb_lt. cbn [List.length]. lia. }
  rewrite P in R. cbn [negb] in R.
  refine (conj _ (conj _ (conj _ _))).
  - intros x F.
    rewrite (MySqlSysProps.collect_metrics_one_row _ db _ _ v columns x Q F) in R.
    rewrite R. cbn [outcome trace]. split; [reflexivity|].
    change (Connect ?a :: ?l) with ([Connect a] ++ l)%list.
    rewrite !metrics_app, MySqlSysProps.gate_no_metrics. reflexivity.
  - intros e F.
    assert (M : _collect_metrics (host_of inst) db (i_tags inst) (options_of inst) =
                Run [Execute percentile_query;
                     LogDebug "Collecting data with %s"
                       [FStr "Ps_digest_95th_percentile_by_avg_us"];
                     LogDebug "Collecting done, value %s" [FVal v]] (Raise e)).
    { unfold _collect_metrics, _get_query_exec_time_95th_per_us, execute, bind. cbn.
      rewrite Q. cbn. unfold _collect_scalar, _collect_type, bind. cbn.
      rewrite F. reflexivity. }
    rewrite M in R. rewrite R. cbn [outcome trace]. split; [reflexivity|].
    change (Connect ?a :: ?l) with ([Connect a] ++ l)%list.
    rewrite !metrics_app, MySqlSysProps.gate_no_metrics. reflexivity.
  - intros q ->. reflexivity.
  - intros ->. reflexivity.
Qed.

(** A percentile view whose only row holds NULL. *)
Lemma percentile_value_conversion_witness :
  let db : Db := fun q =>
    if (q =? "SELECT VERSION()")%string then ResultSet [[DStr "5.7.9-log"]]
    else if (q =? schema_query)%string then ResultSet [[DStr "1.5.0"]]
    else ResultSet [[DNull]] in
  let inst := Instance (Some "db1") (Some "agent") None None None None None None in
  outcome (check (fun _ => Ok db) inst) = Raise TypeError /\
  metrics (trace (check (fun _ => Ok db) inst)) = [].
Proof.
  intros db inst.
  refine (proj1 (proj2 (percentile_value_conversion (fun _ => Ok db) inst db
                   [[DStr "1.5.0"]] DNull [] eq_refl eq_refl eq_refl eq_refl _ eq_refl))
            TypeError eq_refl).
  discriminate.
Defined.

(** ** What the version gate reads of the reported string *)

Lemma split_no_sep sep a : has_char sep a = false -> split sep a = [a].
Proof.
  induction a as [|c a IH]; [reflexivity|].
  cbn. destruct (Ascii.eqb c sep); [discriminate|].
  cbn. intros H. rewrite (IH H). reflexivity.
Qed.

Lemma split_app_sep sep a b :
  has_char sep a = false ->
  split sep (a ++ String sep b) = a :: split sep b.
Proof.
  induction a as [|c a IH]; cbn.
  - rewrite Ascii.eqb_refl. reflexivity.
  - destruct (Ascii.eqb c sep); [discriminate|].
    cbn. intros H. rewrite (IH H). reflexivity.
Qed.

Lemma version_fields_total s : exists f, version_fields s = Ok f.
Proof.
  unfold version_fields, getitem. destruct s as [|c s]; cbn; [eauto|].
  destruct (Ascii.eqb c "-"); cbn; [eauto|].
  destruct (split "-" s); cbn; eauto.
Qed.

(** X8.  A version string with fewer than three dot-separated fields
    before its first dash (5.7, say, or an empty string) never passes the
    gate, whatever its numbers: reading the missing field raises, the gate
    logs the warning and returns [False]. *)
Theorem short_version_not_eligible db host s f
    (R : reports db s) (F : version_fields s = Ok f)
    (L : (List.length f < 3)%nat) :
  outcome (_version_greater_565 db host) = Ok false /\
  exists e,
    parsed_version s = Raise e /\
    In (Warning "Cannot compute mysql version, assuming older than 5.6.5: %s"
          [FExn e])
       (trace (_version_greater_565 db host)).
Proof.
  assert (P : exists e, parsed_version s = Raise e).
  { unfold parsed_version. rewrite F. cbn [rbind].
    unfold version_triple, getitem.
    destruct f as [|a [|b [|c f]]]; cbn in L; try lia; cbn [nth_error rbind]; eauto.
    - destruct (py_int a); cbn [rbind]; eauto.
    - destruct (py_int a); cbn [rbind]; eauto.
      destruct (py_int b); cbn [rbind]; eauto. }
  destruct P as (e & P).
  assert (T : outcome (_version_greater_565_try db host) = Raise e).
  { rewrite (MySqlSysProps.try_outcome db host s R), P. reflexivity. }
  rewrite MySqlSysProps.gate_run, T. cbn [outcome trace].
  split; [reflexivity|]. exists e. split; [exact P|].
  apply in_or_app. right. now left.
Qed.

(** A server that reports 8.0 only. *)
Lemma short_version_not_eligible_witness :
  let db : Db := fun _ => ResultSet [[DStr "8.0"]] in
  outcome (_version_greater_565 db "db1") = Ok false.
Proof.
  intros db.
  refine (proj1 (short_version_not_eligible db "db1" "8.0" ["8"; "0"] _ eq_refl _)).
  - exists [], []. reflexivity.
  - cbn. lia.
Defined.

(** X9.  What follows the first dash of the reported string is not read:
    two servers whose reported strings agree up to the first dash get the
    same answer from the gate. *)
Theorem build_suffix_ignored db db' host host' s suffix
    (D : has_char "-" s = false)
    (R : reports db s) (R' : reports db' (s ++ String "-" suffix)) :
  version_fields (s ++ String "-" suffix) = version_fields s /\
  outcome (_version_greater_565 db' host') = outcome (_version_greater_565 db host).
Proof.
  assert (F : version_fields (s ++ String "-" suffix) = version_fields s).
  { unfold version_fields.
    rewrite (split_app_sep "-" s suffix D), (split_no_sep "-" s D). reflexivity. }
  split; [exact F|].
  rewrite !MySqlSysProps.gate_outcome.
  rewrite (MySqlSysProps.try_outcome db host s R).
  rewrite (MySqlSysProps.try_outcome db' host' _ R').
  unfold parsed_version. rewrite F. reflexivity.
Qed.

(** 5.6.10 and 5.6.10-enterprise-commercial-advanced-log. *)
Lemma build_suffix_ignored_witness :
  let db : Db := fun _ => ResultSet [[DStr "5.6.10"]] in
  let db' : Db := fun _ => ResultSet [[DStr "5.6.10-enterprise-commercial-advanced-log"]] in
  outcome (_version_greater_565 db' "db2") = outcome (_version_greater_565 db "db1").
Proof.
  intros db db'.
  refine (proj2 (build_suffix_ignored db db' "db1" "db2" "5.6.10"
                   "enterprise-commercial-advanced-log" eq_refl _ _));
    exists [], []; reflexivity.
Defined.

(** ** Versions written in digits *)

Lemma digits_of_uint acc d :
  digits_value acc (NilEmpty.string_of_uint d) = Some (uint_value acc d).
Proof.
  revert acc. induction d; intros acc; cbn [NilEmpty.string_of_uint uint_value];
    [reflexivity|..];
    (cbn [digits_value]; change (is_digit _) with true; cbv iota;
     rewrite IHd; do 2 f_equal;
     match goal with
     | |- context [digit_value ?c] =>
         let v := eval vm_compute in (digit_value c) in
         change (digit_value c) with v
     end; lia).
Qed.

Lemma of_uint_acc_value d acc :
  Z.pos (Pos.of_uint_acc d acc) = uint_value (Z.pos acc) d.
Proof.
  revert acc. induction d; intros acc; cbn [Pos.of_uint_acc uint_value];
    [reflexivity|..]; rewrite IHd; f_equal; lia.
Qed.

Lemma of_uint_value d : Z.of_N (Pos.of_uint d) = uint_value 0 d.
Proof.
  induction d; cbn [Pos.of_uint uint_value Z.of_N]; [reflexivity|exact IHd|..];
    apply of_uint_acc_value.
Qed.

Lemma uint_all_digits d : all_digits (NilEmpty.string_of_uint d) = true.
Proof. induction d; cbn; assumption || reflexivity. Qed.

(** The decimal string of a number that is not negative: digits only, at
    least one, and [int] reads the number back. *)
Lemma str_of_Z_digits n :
  0 <= n ->
  all_digits (str_of_Z n) = true /\
  str_of_Z n <> EmptyString /\
  digits_value 0 (str_of_Z n) = Some n.
Proof.
  intros H. destruct n as [|p|p]; [repeat split; discriminate | | lia].
  unfold str_of_Z, NilZero.string_of_int, NilZero.string_of_uint. cbn [Z.to_int].
  pose proof (DecimalPos.Unsigned.to_uint_nonnil p) as NN.
  destruct (Pos.to_uint p) as [|d|d|d|d|d|d|d|d|d|d] eqn:E; [contradiction|..];
    rewrite <- E;
    (split; [apply uint_all_digits|]);
    (split; [rewrite E; discriminate|]);
    rewrite digits_of_uint, <- of_uint_value, DecimalPos.Unsigned.of_to; reflexivity.
Qed.

Lemma all_digits_no_space s : all_digits s = true -> rstrip s = s.
Proof.
  induction s as [|c s IH]; [reflexivity|].
  cbn [all_digits rstrip]. intros H. apply andb_true_iff in H as [C H].
  rewrite (IH H). destruct s; [|reflexivity].
  replace (is_space c) with false; [reflexivity|].
  unfold is_digit, is_space in *. symmetry.
  apply andb_true_iff in C as [C1 C2]. apply Z.leb_le in C1, C2.
  apply orb_false_iff. split; [apply Z.eqb_neq; lia|].
  apply andb_false_iff. right. apply Z.leb_gt. lia.
Qed.

Lemma digit_not_space c : is_digit c = true -> is_space c = false.
Proof.
  unfold is_digit, is_space. intros C.
  apply andb_true_iff in C as [C1 C2]. apply Z.leb_le in C1, C2.
  apply orb_false_iff. split; [apply Z.eqb_neq; lia|].
  apply andb_false_iff. right. apply Z.leb_gt. lia.
Qed.

Lemma digit_not_char c x :
  is_digit c = true -> is_digit x = false -> Ascii.eqb c x = false.
Proof.
  intros C X. destruct (Ascii.eqb_spec c x) as [->|]; [congruence | reflexivity].
Qed.

(** [int] reads a non-empty string of digits as the number it writes. *)
Lemma py_int_digits s v :
  all_digits s = true -> s <> EmptyString -> digits_value 0 s = Some v ->
  py_int s = Ok v.
Proof.
  intros A N V. unfold py_int, strip.
  destruct s as [|c s]; [contradiction|].
  cbn [all_digits] in A. apply andb_true_iff in A as [C A].
  cbn [lstrip]. rewrite (digit_not_space c C).
  rewrite (all_digits_no_space (String c s)) by (cbn; now rewrite C, A).
  unfold split_sign.
  rewrite (digit_not_char c "-" C eq_refl), (digit_not_char c "+" C eq_refl).
  unfold unsigned_int. rewrite V. reflexivity.
Qed.

Lemma all_digits_has_not s x :
  all_digits s = true -> is_digit x = false -> has_char x s = false.
Proof.
  intros A X. induction s as [|c s IH]; [reflexivity|].
  cbn [all_digits] in A. apply andb_true_iff in A as [C A].
  cbn [has_char]. rewrite (digit_not_char c x C X), (IH A). reflexivity.
Qed.

Lemma digit_run_app s t :
  all_digits s = true -> no_leading_digit t = true -> digit_run (s ++ t) = s.
Proof.
  intros A T. induction s as [|c s IH].
  - destruct t as [|x t]; [reflexivity|]. cbn in *.
    apply negb_true_iff in T. rewrite T. reflexivity.
  - cbn [all_digits] in A. apply andb_true_iff in A as [C A].
    cbn [append digit_run]. rewrite C, (IH A). reflexivity.
Qed.

(** ** [_rate_or_gauge_statuses] on any map of statuses *)

Lemma collect_scalar_run key dict :
  _collect_scalar key dict =
  match dict_lookup key dict with
  | None =>
      Run [LogDebug "Collecting data with %s" [FStr key];
           LogDebug "%s returned None" [FStr key]] (Ok None)
  | Some v =>
      Run [LogDebug "Collecting data with %s" [FStr key];
           LogDebug "Collecting done, value %s" [FVal v]]
          (match float_of_dbval v with Ok x => Ok (Some x) | Raise e => Raise e end)
  end.
Proof.
  unfold _collect_scalar, _collect_type, bind. cbn.
  destruct (dict_lookup key dict) as [v|]; cbn; [|reflexivity].
  destruct (float_of_dbval v); reflexivity.
Qed.

(** X10.  Every metric [_rate_or_gauge_statuses] emits comes from a status
    of the map whose key is in the results and whose value [float]
    converts: a rate under the metric name when the type is rate, a gauge
    when it is gauge, with the tags given.  A status whose key is missing
    from the results is passed over: when all are missing the function
    returns normally and emits nothing. *)
Theorem rate_or_gauge_emits_known_statuses statuses dbResults tags :
  (forall a,
     In a (metrics (trace (_rate_or_gauge_statuses statuses dbResults tags))) ->
     exists status metric_name metric_type v x,
       In (status, (metric_name, metric_type)) statuses /\
       dict_lookup status dbResults = Some v /\
       float_of_dbval v = Ok x /\
       ((metric_type = RATE /\ a = Rate metric_name x tags) \/
        (metric_type = GAUGE /\ a = Gauge metric_name x tags))) /\
  ((forall status metric, In (status, metric) statuses ->
      dict_lookup status dbResults = None) ->
   outcome (_rate_or_gauge_statuses statuses dbResults tags) = Ok tt /\
   metrics (trace (_rate_or_gauge_statuses statuses dbResults tags)) = []).
Proof.
  induction statuses as [|[status [metric_name metric_type]] rest [IH1 IH2]].
  - split; [intros a []|]. intros _. split; reflexivity.
  - cbn [_rate_or_gauge_statuses]. rewrite (collect_scalar_run status dbResults).
    destruct (dict_lookup status dbResults) as [v|] eqn:K.
    + split.
      2:{ intros N. rewrite (N status _ (or_introl eq_refl)) in K. discriminate K. }
      destruct (float_of_dbval v) as [x|e] eqn:F; [|unfold bind; cbn; intros a []].
      unfold bind at 1 2. cbn [outcome trace].
      destruct (String.eqb_spec metric_type RATE) as [ER|NR].
      * cbn [emit outcome trace]. intros a. rewrite !metrics_app. cbn [metrics filter is_metric app].
        intros [<-|I].
        { exists status, metric_name, metric_type, v, x.
          repeat split; try assumption; [now left | left; now split]. }
        destruct (IH1 a I) as (st & mn & mt & v' & x' & I' & rest').
        exists st, mn, mt, v', x'. split; [now right | exact rest'].
      * destruct (String.eqb_spec metric_type GAUGE) as [EG|NG].
        { cbn [emit outcome trace]. intros a. rewrite !metrics_app.
          cbn [metrics filter is_metric app]. intros [<-|I].
          { exists status, metric_name, metric_type, v, x.
            repeat split; try assumption; [now left | right; now split]. }
          destruct (IH1 a I) as (st & mn & mt & v' & x' & I' & rest').
          exists st, mn, mt, v', x'. split; [now right | exact rest']. }
        cbn [ret outcome trace]. intros a. rewrite !metrics_app.
        cbn [metrics filter is_metric app]. intros I.
        destruct (IH1 a I) as (st & mn & mt & v' & x' & I' & rest').
        exists st, mn, mt, v', x'. split; [now right | exact rest'].
    + split; unfold bind; cbn [outcome trace ret].
      * intros a. rewrite !metrics_app. cbn [metrics filter is_metric app]. intros I.
        destruct (IH1 a I) as (st & mn & mt & v' & x' & I' & rest').
        exists st, mn, mt, v', x'. split; [now right | exact rest'].
      * intros N.
        destruct (IH2 (fun st m I => N st m (or_intror I))) as (O & M).
        rewrite !metrics_app, M. split; [exact O | reflexivity].
Qed.

End MySqlSysMore.

(* ===================================================================== *)
(** * Further properties of the latency check                             *)
(* ===================================================================== *)

Module LatencyMore.
Import Py PyFacts TCPRoundtripLatencyCheck.

(** ** What a run emits *)

Lemma wait_loop_quiet w command timeout pid clock :
  metrics (trace (wait_loop w command timeout pid clock)) = [] /\
  events (trace (wait_loop w command timeout pid clock)) = [].
Proof.
  induction clock as [|now later [IHm IHe]]; [split; reflexivity|].
  cbn [wait_loop]. destruct (past_deadline w timeout now).
  - destruct timeout as [q|negative|]; split; reflexivity.
  - unfold bind at 1 2 3 4. cbn [emit outcome trace app].
    split; [exact IHm | exact IHe].
Qed.

Lemma timeout_command_quiet w command timeout :
  metrics (trace (_timeout_command w command timeout)) = [] /\
  events (trace (_timeout_command w command timeout)) = [].
Proof.
  unfold _timeout_command. generalize (split " " command) as argv. intros argv.
  destruct (popen w argv) as [pid|e] eqn:P.
  - unfold try_except, bind. cbn -[append wait_loop].
    destruct (wait_loop_quiet w command timeout pid (running_clock w)) as (M & E).
    destruct (outcome (wait_loop w command timeout pid (running_clock w)));
      cbn -[append wait_loop]; split; assumption.
  - unfold try_except, bind. cbn -[append].
    destruct (isinstance_CalledProcessError e) eqn:I; cbn -[append];
      [|split; reflexivity].
    destruct e; try discriminate I. cbn -[append]. split; reflexivity.
Qed.

(** X11.  Whatever the configuration and the machine, a run of [check]
    ends in one of three ways: it raises having emitted nothing; it returns
    normally having emitted one histogram mysql.net.tcp_rt_latency with the
    tags of the instance and no event; or it returns normally having
    emitted one event and no metric.  The event has the type
    mysql_tcp_rt_latency_check, the time of [time.time()] and the digest of
    the host as its aggregation key. *)
Theorem one_histogram_one_event_or_an_exception w inst :
  ((exists e, outcome (check w inst) = Raise e) /\
   metrics (trace (check w inst)) = [] /\ events (trace (check w inst)) = []) \/
  (outcome (check w inst) = Ok tt /\
   (exists x,
      metrics (trace (check w inst)) =
      [Histogram "mysql.net.tcp_rt_latency" x (i_tags inst)]) /\
   events (trace (check w inst)) = []) \/
  (outcome (check w inst) = Ok tt /\
   metrics (trace (check w inst)) = [] /\
   exists ev,
     events (trace (check w inst)) = [Event ev] /\
     event_type ev = "mysql_tcp_rt_latency_check" /\
     timestamp ev = time_time w /\
     aggregation_key ev = md5_hexdigest (host_of inst)).
Proof.
  destruct (valid_config inst) eqn:V.
  2:{ left. unfold valid_config in V.
      destruct (converted_timeout inst) as [timeout|e] eqn:K.
      - apply negb_false_iff in V.
        rewrite (LatencyProps.check_invalid w inst timeout K V). cbn. eauto.
      - rewrite (LatencyProps.check_timeout_rejected w inst e K). cbn. eauto. }
  rewrite (LatencyProps.check_valid w inst V).
  destruct (timeout_command_quiet w (command_of inst) (timeout_of inst)) as (M & E).
  pose proof (run_eta (_timeout_command w (command_of inst) (timeout_of inst))) as R.
  destruct (outcome (_timeout_command w (command_of inst) (timeout_of inst)))
    as [res|e].
  - rewrite (LatencyProps.collect_metrics_completed _ _ _ _ _ _ _ _ _ _ R).
    destruct (parse_output res) as [x|e]; cbn [outcome trace].
    + right; left. rewrite metrics_app, events_app, M, E. cbn. eauto.
    + left. eauto.
  - rewrite (LatencyProps.collect_metrics_failed _ _ _ _ _ _ _ _ _ _ R).
    destruct (isinstance_RuntimeError e); cbn [outcome trace].
    { right; right. rewrite metrics_app, events_app, M, E. cbn.
      split; [reflexivity|]. split; [reflexivity|]. eexists. split; [reflexivity|].
      repeat split. }
    destruct (isinstance_Timeout e); cbn [outcome trace].
    { right; right. rewrite metrics_app, events_app, M, E. cbn.
      split; [reflexivity|]. split; [reflexivity|]. eexists. split; [reflexivity|].
      repeat split. }
    left. eauto.
Qed.

(** X12.  When the command completes in time, no signal is sent and
    [waitpid] is not called; the loop has slept once for each poll that
    found the child running, and read the output after the poll that found
    it gone. *)
Theorem no_signal_when_in_time w command timeout pid
    (P : popen w (split " " command) = Spawned pid)
    (D : completes_in_time w timeout = true) :
  filter is_kill_or_wait (trace (_timeout_command w command timeout)) = [] /\
  List.length (filter is_sleep (trace (_timeout_command w command timeout))) =
    List.length (running_clock w) /\
  exists before,
    trace (_timeout_command w command timeout) =
    (before ++ [Poll (Some (exit_code w)); ReadStdout])%list.
Proof.
  rewrite (LatencyProps.timeout_command_completes w command timeout pid P D).
  cbn [trace].
  assert (I : filter is_kill_or_wait (idle_turns (running_clock w)) = [] /\
              List.length (filter is_sleep (idle_turns (running_clock w))) =
              List.length (running_clock w)).
  { induction (running_clock w) as [|now later [IH1 IH2]]; [split; reflexivity|].
    cbn [idle_turns flat_map app filter is_kill_or_wait is_sleep List.length].
    split; [exact IH1 | f_equal; exact IH2]. }
  destruct I as (I1 & I2).
  refine (conj _ (conj _ _)).
  - change (Popen ?a :: ?l) with ([Popen a] ++ l)%list.
    rewrite !filter_app, I1. reflexivity.
  - change (Popen ?a :: ?l) with ([Popen a] ++ l)%list.
    rewrite !filter_app, !length_app, I2. cbn. lia.
  - exists (Popen (split " " command) :: idle_turns (running_clock w)). reflexivity.
Qed.

(** A netperf that is polled twice before it exits. *)
Lemma no_signal_when_in_time_witness :
  let w := Os (fun _ => Spawned 4242) 0 [100000; 200000] 0 (0, 0)
              "TCP,667.240,785,970" 1400000000 in
  filter is_kill_or_wait (trace (_timeout_command w "netperf -l 1" (Finite 5))) = [].
Proof.
  intros w.
  exact (proj1 (no_signal_when_in_time w "netperf -l 1" (Finite 5) 4242 eq_refl eq_refl)).
Defined.

(** ** The deadline test *)

Lemma past_deadline_iff w (timeout : Q) now :
  past_deadline w (Finite timeout) now = true <->
  Qfloor timeout + 1 <= timedelta_seconds now (start_clock w).
Proof.
  unfold past_deadline, int_gt_float. rewrite negb_true_iff.
  set (s := timedelta_seconds now (start_clock w)).
  split.
  - intros H.
    destruct (Z_lt_le_dec (Qfloor timeout) s) as [L|L]; [lia|].
    assert (Q : Qle_bool (inject_Z s) timeout = true); [|congruence].
    apply Qle_bool_iff.
    apply Qle_trans with (inject_Z (Qfloor timeout)); [|apply Qfloor_le].
    rewrite <- Zle_Qle. exact L.
  - intros H. destruct (Qle_bool (inject_Z s) timeout) eqn:Q; [|reflexivity].
    apply Qle_bool_iff in Q.
    assert (L : (inject_Z s < inject_Z (Qfloor timeout + 1))%Q).
    { eapply Qle_lt_trans; [exact Q | apply Qlt_floor]. }
    rewrite <- Zlt_Qlt in L. lia.
Qed.

Lemma timedelta_seconds_range now start : 0 <= timedelta_seconds now start <= 86399.
Proof.
  unfold timedelta_seconds.
  pose proof (Z.mod_pos_bound ((now - start) / 1000000) 86400 ltac:(lia)). lia.
Qed.

(** X13.  The elapsed time is compared in whole seconds: while less than
    a day has passed since the start, a turn of the loop finds the deadline
    passed exactly when at least floor(timeout) + 1 full seconds have
    passed.  With a timeout of 1 the child is left alone until two seconds
    have gone by. *)
Theorem deadline_in_whole_seconds w (timeout : Q) now
    (H : 0 <= now - start_clock w < 86400 * 1000000) :
  past_deadline w (Finite timeout) now = true <->
  (Qfloor timeout + 1) * 1000000 <= now - start_clock w.
Proof.
  rewrite past_deadline_iff. unfold timedelta_seconds.
  pose proof (Z.div_mod (now - start_clock w) 1000000 ltac:(lia)) as E.
  pose proof (Z.mod_pos_bound (now - start_clock w) 1000000 ltac:(lia)) as B.
  rewrite Z.mod_small by (split; [apply Z.div_pos; lia | apply Z.div_lt_upper_bound; lia]).
  lia.
Qed.

(** 1.9 seconds into a timeout of one second: not yet. *)
Lemma deadline_in_whole_seconds_witness :
  let w := Os (fun _ => Spawned 4242) 0 [] 0 (0, 0) EmptyString 0 in
  past_deadline w (Finite 1) 1900000 = false.
Proof.
  intros w.
  pose proof (deadline_in_whole_seconds w 1 1900000 ltac:(cbn; lia)) as [F _].
  destruct (past_deadline w (Finite 1) 1900000); [|reflexivity].
  specialize (F eq_refl). cbn in F. lia.
Defined.

(** X14.  The seconds of a time difference never exceed 86399, so a
    timeout of 86399 seconds or more is never found passed: the child is
    never killed and [_timeout_command] returns its output however long it
    ran. *)
Theorem day_long_timeout_never_fires w command (timeout : Q) pid
    (T : (86399 <= timeout)%Q)
    (P : popen w (split " " command) = Spawned pid) :
  (forall now, past_deadline w (Finite timeout) now = false) /\
  outcome (_timeout_command w command (Finite timeout)) = Ok (stdout_text w) /\
  filter is_kill_or_wait (trace (_timeout_command w command (Finite timeout))) = [].
Proof.
  assert (N : forall now, past_deadline w (Finite timeout) now = false).
  { intros now. destruct (past_deadline w (Finite timeout) now) eqn:E; [|reflexivity].
    apply past_deadline_iff in E.
    pose proof (timedelta_seconds_range now (start_clock w)).
    assert (F : 86399 <= Qfloor timeout).
    { change 86399 with (Qfloor (inject_Z 86399)). apply Qfloor_resp_le. exact T. }
    lia. }
  assert (D : completes_in_time w (Finite timeout) = true).
  { unfold completes_in_time. apply forallb_forall. intros now _. now rewrite N. }
  split; [exact N|].
  rewrite (LatencyProps.timeout_command_completes w command (Finite timeout) pid P D).
  cbn [outcome trace]. split; [reflexivity|].
  change (Popen ?a :: ?l) with ([Popen a] ++ l)%list. rewrite !filter_app.
  induction (running_clock w) as [|now later IH]; [reflexivity | exact IH].
Qed.

(** A child still running three days after the start, timeout one day. *)
Lemma day_long_timeout_never_fires_witness :
  let w := Os (fun _ => Spawned 4242) 0 [259200000000] 0 (0, 0) "late" 0 in
  outcome (_timeout_command w "sleep 300000" (Finite 86400)) = Ok "late".
Proof.
  intros w.
  refine (proj1 (proj2 (day_long_timeout_never_fires w "sleep 300000" 86400 4242 _ eq_refl))).
  unfold Qle. cbn. lia.
Defined.

Lemma set_back_seconds now start :
  start - 1000000 <= now < start -> timedelta_seconds now start = 86399.
Proof.
  intros B. unfold timedelta_seconds.
  replace ((now - start) / 1000000) with (-1).
  - reflexivity.
  - apply Z.div_unique with (now - start + 1000000); lia.
Qed.

Lemma floor_below (timeout : Q) (n : Z) : (timeout < inject_Z n)%Q -> Qfloor timeout < n.
Proof.
  intros T. destruct (Z_lt_le_dec (Qfloor timeout) n) as [L|L]; [exact L|].
  exfalso. apply (Qlt_not_le _ _ T).
  apply Qle_trans with (inject_Z (Qfloor timeout)); [|apply Qfloor_le].
  rewrite <- Zle_Qle. exact L.
Qed.

(** X15.  The clock is the wall clock.  When the first turn of the wait
    loop reads it up to one second before the start (the clock was set
    back), the seconds of the difference are 86399 and the deadline is
    found passed, for every timeout below 86399: on that turn
    [_timeout_command] sends SIGKILL to the child, calls [waitpid] and
    raises the timeout, having polled the child once. *)
Theorem clock_set_back_kills w command (timeout : Q) pid now later
    (T : (timeout < 86399)%Q)
    (P : popen w (split " " command) = Spawned pid)
    (C : running_clock w = now :: later)
    (B : start_clock w - 1000000 <= now < start_clock w) :
  timedelta_seconds now (start_clock w) = 86399 /\
  past_deadline w (Finite timeout) now = true /\
  _timeout_command w command (Finite timeout) =
    Run [Popen (split " " command); Poll None; Sleep (1 # 10); Kill pid SIGKILL;
         Waitpid (-1) WNOHANG (waitpid_result w)]
        (Raise (TCPRoundtripLatencyCheckTimeout
                  "The command '%s' timed out after %d seconds"
                  [FStr command; FFloat (Finite timeout)])) /\
  killed pid (trace (_timeout_command w command (Finite timeout))) = true.
Proof.
  pose proof (set_back_seconds now (start_clock w) B) as S.
  assert (D : past_deadline w (Finite timeout) now = true).
  { apply past_deadline_iff. rewrite S.
    pose proof (floor_below timeout 86399 T). lia. }
  assert (R : _timeout_command w command (Finite timeout) =
    Run [Popen (split " " command); Poll None; Sleep (1 # 10); Kill pid SIGKILL;
         Waitpid (-1) WNOHANG (waitpid_result w)]
        (Raise (TCPRoundtripLatencyCheckTimeout
                  "The command '%s' timed out after %d seconds"
                  [FStr command; FFloat (Finite timeout)]))).
  { unfold _timeout_command.
    rewrite (LatencyProps.popen_spawned w command pid P), C.
    cbn [wait_loop]. rewrite D. reflexivity. }
  refine (conj S (conj D (conj R _))).
  rewrite R. cbn [trace killed kills existsb orb]. 
  rewrite Z.eqb_refl. reflexivity.
Qed.

(** The clock read one millisecond before the start on the first turn,
    timeout 5: the child is killed at once. *)
Lemma clock_set_back_kills_witness :
  let w := Os (fun _ => Spawned 4242) 1000000000 [999999000; 1000100000] 0 (0, 0)
              EmptyString 0 in
  killed 4242 (trace (_timeout_command w "netperf -l 1" (Finite 5))) = true.
Proof.
  intros w.
  refine (proj2 (proj2 (proj2
    (clock_set_back_kills w "netperf -l 1" 5 4242 999999000 [1000100000] _ eq_refl eq_refl _)))).
  - reflexivity.
  - cbn. lia.
Defined.

(** ** The command line *)

Lemma has_char_app c a b : has_char c (a ++ b) = has_char c a || has_char c b.
Proof.
  induction a as [|x a IH]; [reflexivity|].
  cbn. rewrite IH, orb_assoc. reflexivity.
Qed.

Lemma count_char_app c a b :
  count_char c (a ++ b) = (count_char c a + count_char c b)%nat.
Proof.
  induction a as [|x a IH]; [reflexivity|].
  cbn [append count_char]. rewrite IH. lia.
Qed.

Lemma count_char_none c a : has_char c a = false -> count_char c a = O.
Proof.
  induction a as [|x a IH]; [reflexivity|].
  cbn. destruct (Ascii.eqb x c); [discriminate|]. exact IH.
Qed.

Lemma split_length sep s : List.length (split sep s) = S (count_char sep s).
Proof.
  induction s as [|c s IH]; [reflexivity|].
  cbn [split count_char]. destruct (Ascii.eqb c sep).
  - cbn [List.length]. rewrite IH. reflexivity.
  - destruct (split sep s); [discriminate IH|]. exact IH.
Qed.

(** [sep.join(l).split(sep)] gives [l] back when no word holds [sep]. *)
Lemma split_join sep w l :
  has_char sep w = false ->
  (forall x, In x l -> has_char sep x = false) ->
  split sep (join (String sep EmptyString) (w :: l)) = w :: l.
Proof.
  revert w. induction l as [|y l IH]; intros w W L.
  - apply MySqlSysMore.split_no_sep. exact W.
  - change (join (String sep EmptyString) (w :: y :: l))
      with (w ++ String sep (join (String sep EmptyString) (y :: l))).
    rewrite (MySqlSysMore.split_app_sep sep w _ W).
    rewrite (IH y (L y (or_introl eq_refl)) (fun x I => L x (or_intror I))).
    reflexivity.
Qed.

Lemma uint_no_space d : has_char " " (NilEmpty.string_of_uint d) = false.
Proof. induction d; cbn; assumption || reflexivity. Qed.

Lemma str_of_Z_no_space n : has_char " " (str_of_Z n) = false.
Proof.
  unfold str_of_Z, NilZero.string_of_int, NilZero.string_of_uint.
  destruct (Z.to_int n) as [d|d]; destruct d; cbn; try reflexivity;
    apply uint_no_space.
Qed.

Lemma append_assoc3 a b c : ((a ++ b) ++ c)%string = (a ++ (b ++ c))%string.
Proof. induction a as [|x a IH]; [reflexivity|]. cbn. now rewrite IH. Qed.

(** The command line as the words it is made of. *)
Lemma command_words inst :
  command_of inst =
  join " "
    ["/usr/bin/netperf"; "-l"; "1"; "-H"; host_of inst; "-p";
     str_of_Z (port_of inst); "-t"; "omni"; "-j"; "-v"; "0"; "-P"; "0"; "--";
     "-d"; "rr"; "-o"; "PROTOCOL,RT_LATENCY,P90_LATENCY,P99_LATENCY"; "-r";
     str_of_Z (request_size_of inst) ++ "," ++ str_of_Z (response_size_of inst);
     "-T"; "TCP"; "-b"; "6"].
Proof.
  unfold command_of, netperf_cmd. cbn [join].
  rewrite !append_assoc3. reflexivity.
Qed.

(** X16.  For a host that holds no space, the argument list handed to
    [Popen] is the netperf binary followed by 24 arguments: the test length
    1, the host after -H, the port after -p, the fixed omni test options,
    the four output columns after -o, request and response size joined by a
    comma after -r, the protocol TCP and the burst size 6. *)
Theorem argv_of_plain_host inst (H : has_char " " (host_of inst) = false) :
  argv_of inst =
  ["/usr/bin/netperf"; "-l"; "1"; "-H"; host_of inst; "-p";
   str_of_Z (port_of inst); "-t"; "omni"; "-j"; "-v"; "0"; "-P"; "0"; "--";
   "-d"; "rr"; "-o"; "PROTOCOL,RT_LATENCY,P90_LATENCY,P99_LATENCY"; "-r";
   str_of_Z (request_size_of inst) ++ "," ++ str_of_Z (response_size_of inst);
   "-T"; "TCP"; "-b"; "6"].
Proof.
  unfold argv_of. rewrite command_words. apply split_join; [reflexivity|].
  intros x I. cbn [In] in I.
  repeat (destruct I as [<-|I]; [first [reflexivity | exact H | apply str_of_Z_no_space | idtac] |]);
    try contradiction.
  rewrite !has_char_app, !str_of_Z_no_space. reflexivity.
Qed.

(** The probe of the docstring of [_collect_metrics]. *)
Lemma argv_of_plain_host_witness :
  argv_of (Instance (Some "192.168.10.10") (Some 12865) (Some 512) (Some 256)
             None None None) =
  ["/usr/bin/netperf"; "-l"; "1"; "-H"; "192.168.10.10"; "-p"; "12865"; "-t";
   "omni"; "-j"; "-v"; "0"; "-P"; "0"; "--"; "-d"; "rr"; "-o";
   "PROTOCOL,RT_LATENCY,P90_LATENCY,P99_LATENCY"; "-r"; "512,256"; "-T"; "TCP";
   "-b"; "6"].
Proof.
  exact (argv_of_plain_host
           (Instance (Some "192.168.10.10") (Some 12865) (Some 512) (Some 256)
              None None None) eq_refl).
Defined.

(** X17.  The command is split at every space, so the spaces of the host
    count: the argument list has 25 elements plus one for each space in the
    host, which is passed as several arguments. *)
Theorem argv_grows_with_spaces inst :
  List.length (argv_of inst) = (25 + count_char " " (host_of inst))%nat.
Proof.
  unfold argv_of. rewrite split_length, command_words. cbn [join].
  rewrite !count_char_app.
  rewrite !(count_char_none " " _ (str_of_Z_no_space _)). cbn. lia.
Qed.

(** ** Reading one line of four plain fields *)

Lemma special_cases c :
  csv_special c = false ->
  Ascii.eqb c Csv.delimiter = false /\ Ascii.eqb c Csv.quotechar = false /\
  Csv.is_newline c = false /\ Ascii.eqb c "000" = false.
Proof. unfold csv_special. rewrite !orb_false_iff. tauto. Qed.

Lemma string_length_app a b :
  String.length (a ++ b) = (String.length a + String.length b)%nat.
Proof. induction a as [|x a IH]; [reflexivity|]. cbn. now rewrite IH. Qed.

(** Inside a field, plain characters are added to the field. *)
Lemma feed_in_field s :
  forall fs f rest,
    no_special s = true ->
    Z.of_nat (String.length f + String.length s) <= Csv.field_limit ->
    Csv.feed_line (Csv.Reader Csv.IN_FIELD fs f) (s ++ rest) =
    Csv.feed_line (Csv.Reader Csv.IN_FIELD fs (f ++ s)) rest.
Proof.
  induction s as [|c s IH]; intros fs f rest N L.
  - cbn [append]. replace (f ++ EmptyString)%string with f; [reflexivity|].
    clear. induction f as [|x f IH]; [reflexivity|]. cbn. now rewrite <- IH.
  - cbn [no_special] in N. apply andb_true_iff in N as [C N].
    apply negb_true_iff in C. destruct (special_cases c C) as (D & Q & W & Z0).
    cbn [append Csv.feed_line]. rewrite Z0.
    unfold Csv.parse_process_char at 1. cbn [Csv.state]. rewrite W, D.
    unfold Csv.parse_add_char. cbn [Csv.field Csv.state Csv.fields String.length] in *.
    destruct (Z.leb_spec Csv.field_limit (Z.of_nat (String.length f))); [lia|].
    cbn [rbind]. rewrite IH.
    + rewrite append_assoc3. reflexivity.
    + exact N.
    + rewrite string_length_app. cbn [String.length]. lia.
Qed.

(** At the start of a field, a plain field is read whole. *)
Lemma feed_field s fs rest :
  plain_field s = true ->
  Csv.feed_line (Csv.Reader Csv.START_FIELD fs EmptyString) (s ++ rest) =
  Csv.feed_line
    (Csv.Reader (match s with EmptyString => Csv.START_FIELD | _ => Csv.IN_FIELD end)
       fs s) rest.
Proof.
  unfold plain_field. intros H. apply andb_true_iff in H as [N L].
  apply Z.leb_le in L.
  destruct s as [|c s]; [reflexivity|].
  cbn [no_special] in N. apply andb_true_iff in N as [C N].
  apply negb_true_iff in C. destruct (special_cases c C) as (D & Q & W & Z0).
  cbn [append Csv.feed_line]. rewrite Z0.
  unfold Csv.parse_process_char at 1. cbn [Csv.state]. rewrite W, Q, D.
  unfold Csv.parse_add_char. cbn [Csv.field Csv.state Csv.fields String.length rbind
                                  Csv.set_state append].
  change (Csv.field_limit <=? Z.of_nat 0) with false.
  cbn [rbind]. unfold Csv.set_state. cbn [Csv.field Csv.state Csv.fields].
  rewrite (feed_in_field s fs (String c EmptyString) rest N).
  - reflexivity.
  - cbn [String.length] in *. lia.
Qed.

(** The same at the start of the record. *)
Lemma feed_first_field s rest :
  plain_field s = true ->
  Csv.feed_line Csv.parse_reset (s ++ rest) =
  Csv.feed_line
    (Csv.Reader (match s with EmptyString => Csv.START_RECORD | _ => Csv.IN_FIELD end)
       [] s) rest.
Proof.
  intros H. destruct s as [|c s]; [reflexivity|].
  rewrite <- (feed_field (String c s) [] rest H).
  unfold plain_field in H. apply andb_true_iff in H as [N L].
  cbn [no_special] in N. apply andb_true_iff in N as [C N].
  apply negb_true_iff in C. destruct (special_cases c C) as (D & Q & W & Z0).
  cbn [append Csv.feed_line]. rewrite Z0.
  unfold Csv.parse_process_char, Csv.parse_reset. cbn [Csv.state]. rewrite W.
  reflexivity.
Qed.

(** A comma ends the field, whatever was read of it. *)
Lemma feed_comma st fs f rest :
  st = Csv.START_RECORD \/ st = Csv.START_FIELD \/ st = Csv.IN_FIELD ->
  Csv.feed_line (Csv.Reader st fs f) ("," ++ rest) =
  Csv.feed_line (Csv.Reader Csv.START_FIELD (fs ++ [f]) EmptyString) rest.
Proof. intros [->|[->| ->]]; reflexivity. Qed.

(** The end of the line ends the last field and the record. *)
Lemma feed_line_end st fs f eol :
  st = Csv.START_FIELD \/ st = Csv.IN_FIELD ->
  line_end eol = true ->
  Csv.feed_line (Csv.Reader st fs f) eol =
  Ok (Csv.Reader Csv.START_RECORD (fs ++ [f]) EmptyString).
Proof.
  unfold line_end. rewrite !orb_true_iff, !String.eqb_eq.
  intros [->| ->] [[->| ->]| ->]; reflexivity.
Qed.

Lemma first_state_cases (s : string) :
  let st := match s with EmptyString => Csv.START_RECORD | _ => Csv.IN_FIELD end in
  st = Csv.START_RECORD \/ st = Csv.START_FIELD \/ st = Csv.IN_FIELD.
Proof. destruct s; cbn; tauto. Qed.

Lemma field_state_cases (s : string) :
  let st := match s with EmptyString => Csv.START_FIELD | _ => Csv.IN_FIELD end in
  st = Csv.START_FIELD \/ st = Csv.IN_FIELD.
Proof. destruct s; cbn; tauto. Qed.

(** A line of four plain fields is read as these four fields, and
    [float] is applied to the second. *)
Lemma parse_four_fields protocol rt_latency p90_latency p99_latency eol :
  plain_field protocol = true -> plain_field rt_latency = true ->
  plain_field p90_latency = true -> plain_field p99_latency = true ->
  line_end eol = true ->
  Csv.read_all
    [protocol ++ "," ++ rt_latency ++ "," ++ p90_latency ++ "," ++ p99_latency ++ eol] =
    Ok [[protocol; rt_latency; p90_latency; p99_latency]] /\
  parse_output
    (protocol ++ "," ++ rt_latency ++ "," ++ p90_latency ++ "," ++ p99_latency ++ eol) =
    py_float rt_latency.
Proof.
  intros H1 H2 H3 H4 E.
  assert (F : Csv.feed_line Csv.parse_reset
                (protocol ++ "," ++ rt_latency ++ "," ++ p90_latency ++ "," ++
                 p99_latency ++ eol) =
              Ok (Csv.Reader Csv.START_RECORD
                    [protocol; rt_latency; p90_latency; p99_latency] EmptyString)).
  { rewrite (feed_first_field protocol _ H1).
    rewrite (feed_comma _ _ _ _ (first_state_cases protocol)).
    rewrite (feed_field rt_latency _ _ H2).
    rewrite (feed_comma _ _ _ _ (or_intror (field_state_cases rt_latency))).
    rewrite (feed_field p90_latency _ _ H3).
    rewrite (feed_comma _ _ _ _ (or_intror (field_state_cases p90_latency))).
    rewrite (feed_field p99_latency _ _ H4).
    rewrite (feed_line_end _ _ _ _ (field_state_cases p99_latency) E).
    reflexivity. }
  unfold Csv.read_all, parse_output. cbn [Csv.for_rows]. rewrite F.
  split; reflexivity.
Qed.

(** X18.  When the command completes in time and prints one line of
    four comma-separated plain fields, with or without a line end, only the
    second field is used: [check] emits the histogram with [float] of that
    field, whatever the protocol label and the two percentile fields are;
    when [float] rejects the second field, [check] raises [ValueError] and
    emits nothing. *)
Theorem only_rt_latency_is_read w inst pid
    protocol rt_latency p90_latency p99_latency eol
    (V : valid_config inst = true)
    (P : popen w (argv_of inst) = Spawned pid)
    (D : completes_in_time w (timeout_of inst) = true)
    (F1 : plain_field protocol = true) (F2 : plain_field rt_latency = true)
    (F3 : plain_field p90_latency = true) (F4 : plain_field p99_latency = true)
    (E : line_end eol = true)
    (O : stdout_text w =
         (protocol ++ "," ++ rt_latency ++ "," ++ p90_latency ++ "," ++
          p99_latency ++ eol)%string) :
  (forall x,
     py_float rt_latency = Ok x ->
     outcome (check w inst) = Ok tt /\
     metrics (trace (check w inst)) =
       [Histogram "mysql.net.tcp_rt_latency" x (i_tags inst)] /\
     events (trace (check w inst)) = []) /\
  (forall e,
     py_float rt_latency = Raise e ->
     outcome (check w inst) = Raise ValueError /\
     metrics (trace (check w inst)) = [] /\
     events (trace (check w inst)) = []).
Proof.
  pose proof (LatencyProps.check_completed w inst pid V P D) as R.
  rewrite O in R.
  rewrite (proj2 (parse_four_fields protocol rt_latency p90_latency p99_latency eol
                    F1 F2 F3 F4 E)) in R.
  split.
  - intros x F. rewrite F in R. rewrite R. cbn [outcome trace].
    split; [reflexivity|].
    change (Popen (argv_of inst) :: ?l) with ([Popen (argv_of inst)] ++ l)%list.
    rewrite !metrics_app, !events_app.
    rewrite LatencyProps.idle_turns_no_metrics, LatencyProps.idle_turns_no_events.
    split; reflexivity.
  - intros e F. rewrite (py_float_raises _ _ F) in F. rewrite F in R.
    rewrite R. cbn [outcome trace]. split; [reflexivity|].
    change (Popen (argv_of inst) :: ?l) with ([Popen (argv_of inst)] ++ l)%list.
    rewrite !metrics_app, !events_app.
    rewrite LatencyProps.idle_turns_no_metrics, LatencyProps.idle_turns_no_events.
    split; reflexivity.
Qed.

(** A UDP line with other percentiles, ended by a line feed. *)
Lemma only_rt_latency_is_read_witness :
  let w := Os (fun _ => Spawned 4242) 0 [100000] 0 (0, 0)
              ("UDP,12.5,1,2" ++ String "010" EmptyString) 1400000000 in
  let inst := Instance (Some "192.168.10.10") (Some 12865) (Some 512) (Some 256)
                None (Some ["role:db"]) None in
  metrics (trace (check w inst)) =
  [Histogram "mysql.net.tcp_rt_latency" (Finite 12.5) (Some ["role:db"])].
Proof.
  intros w inst.
  exact (proj1 (proj2 (proj1
    (only_rt_latency_is_read w inst 4242 "UDP" "12.5" "1" "2"
       (String "010" EmptyString) eq_refl eq_refl eq_refl eq_refl eq_refl
       eq_refl eq_refl eq_refl eq_refl)
    (Finite 12.5) eq_refl))).
Defined.

(** ** The handler of [CalledProcessError] *)



End LatencyMore.

(* ===================================================================== *)
(** * Versions written in digits                                          *)
(* ===================================================================== *)

Module MySqlSysVersions.
Import Py PyFacts MySqlSys.

Lemma append_nil s : (s ++ EmptyString)%string = s.
Proof. induction s as [|c s IH]; [reflexivity|]. cbn. now rewrite IH. Qed.

Lemma str_no_char n x :
  0 <= n -> is_digit x = false -> has_char x (str_of_Z n) = false.
Proof.
  intros H X. destruct (MySqlSysMore.str_of_Z_digits n H) as (A & _).
  exact (MySqlSysMore.all_digits_has_not _ x A X).
Qed.

Lemma py_int_str n : 0 <= n -> py_int (str_of_Z n) = Ok n.
Proof.
  intros H. destruct (MySqlSysMore.str_of_Z_digits n H) as (A & N & V).
  exact (MySqlSysMore.py_int_digits _ n A N V).
Qed.

(** The fields and the triple of a version written as three numbers, with
    letters after the third and a build suffix after a dash. *)
Lemma numeric_version_parsed major minor patchlevel letters build :
  0 <= major -> 0 <= minor -> 0 <= patchlevel ->
  no_leading_digit letters = true ->
  has_char "." letters = false -> has_char "-" letters = false ->
  build = EmptyString \/ (exists suffix, build = String "-" suffix) ->
  parsed_version
    (str_of_Z major ++ "." ++ str_of_Z minor ++ "." ++ str_of_Z patchlevel ++
     letters ++ build) = Ok [major; minor; patchlevel].
Proof.
  intros HM Hm Hp L1 L2 L3 B.
  set (body := join "." [str_of_Z major; str_of_Z minor; str_of_Z patchlevel ++ letters]).
  assert (E : (str_of_Z major ++ "." ++ str_of_Z minor ++ "." ++ str_of_Z patchlevel ++
               letters ++ build)%string = (body ++ build)%string).
  { unfold body. cbn [join]. rewrite !LatencyMore.append_assoc3. reflexivity. }
  assert (D : has_char "-" body = false).
  { unfold body. cbn [join]. rewrite !LatencyMore.has_char_app.
    rewrite !(str_no_char _ "-") by (assumption || reflexivity). rewrite L3. reflexivity. }
  assert (F : version_fields (body ++ build) =
              Ok [str_of_Z major; str_of_Z minor; (str_of_Z patchlevel ++ letters)%string]).
  { assert (S : split "." body =
                [str_of_Z major; str_of_Z minor; (str_of_Z patchlevel ++ letters)%string]).
    { unfold body. apply LatencyMore.split_join.
      - apply str_no_char; [assumption | reflexivity].
      - intros x [<-|[<-|[]]].
        + apply str_no_char; [assumption | reflexivity].
        + rewrite LatencyMore.has_char_app, L2, str_no_char by (assumption || reflexivity).
          reflexivity. }
    unfold version_fields. destruct B as [->|(suffix & ->)].
    - rewrite append_nil, (MySqlSysMore.split_no_sep "-" body D).
      unfold getitem. cbn [nth_error rbind]. now rewrite S.
    - rewrite (MySqlSysMore.split_app_sep "-" body suffix D).
      unfold getitem. cbn [nth_error rbind]. now rewrite S. }
  unfold parsed_version. rewrite E, F. cbn [rbind].
  unfold version_triple, getitem. cbn [nth_error rbind].
  rewrite (py_int_str major HM). cbn [rbind].
  rewrite (py_int_str minor Hm). cbn [rbind].
  destruct (MySqlSysMore.str_of_Z_digits patchlevel Hp) as (A & N & V).
  unfold re_match_digits. rewrite (MySqlSysMore.digit_run_app _ _ A L1).
  destruct (str_of_Z patchlevel) as [|c s] eqn:P; [contradiction|].
  cbn [group1 rbind]. rewrite <- P, (py_int_str patchlevel Hp). reflexivity.
Qed.

(** X20.  For a server that reports its version as three numbers joined
    by dots, with or without letters after the third and a build suffix
    after a dash (5.0.51a-log, 5.7.9, 10.1.2-MariaDB), the gate reads these
    three numbers and passes exactly when they are, in the lexicographic
    order, strictly greater than (5, 6, 5). *)
Theorem numeric_version_gate db host major minor patchlevel letters build
    (HM : 0 <= major) (Hm : 0 <= minor) (Hp : 0 <= patchlevel)
    (L1 : no_leading_digit letters = true)
    (L2 : has_char "." letters = false) (L3 : has_char "-" letters = false)
    (B : build = EmptyString \/ (exists suffix, build = String "-" suffix))
    (R : reports db
           (str_of_Z major ++ "." ++ str_of_Z minor ++ "." ++ str_of_Z patchlevel ++
            letters ++ build)) :
  parsed_version
    (str_of_Z major ++ "." ++ str_of_Z minor ++ "." ++ str_of_Z patchlevel ++
     letters ++ build) = Ok [major; minor; patchlevel] /\
  (outcome (_version_greater_565 db host) = Ok true <->
   lex_gt_565 major minor patchlevel) /\
  (outcome (_version_greater_565 db host) = Ok false <->
   ~ lex_gt_565 major minor patchlevel).
Proof.
  pose proof (numeric_version_parsed major minor patchlevel letters build
                HM Hm Hp L1 L2 L3 B) as P.
  split; [exact P|].
  rewrite MySqlSysProps.gate_outcome, (MySqlSysProps.try_outcome db host _ R), P.
  cbn [rbind].
  pose proof (MySqlSysProps.tuple_gt_565 major minor patchlevel) as T.
  destruct (tuple_gt [major; minor; patchlevel] [5; 6; 5]).
  - split; [tauto|]. split; [discriminate|]. intros N. exfalso. apply N, T. reflexivity.
  - split.
    + split; [discriminate|]. intros L. apply T in L. discriminate L.
    + split; [|reflexivity]. intros _ L. apply T in L. discriminate L.
Qed.

(** A MariaDB 10.1.2 server. *)
Lemma numeric_version_gate_witness :
  let db : Db := fun _ => ResultSet [[DStr "10.1.2-MariaDB"]] in
  outcome (_version_greater_565 db "db1") = Ok true.
Proof.
  intros db.
  refine (proj2 (proj1 (proj2
    (numeric_version_gate db "db1" 10 1 2 EmptyString "-MariaDB"
       ltac:(lia) ltac:(lia) ltac:(lia) eq_refl eq_refl eq_refl _ _))) _).
  - right. exists "MariaDB". reflexivity.
  - exists [], []. reflexivity.
  - unfold lex_gt_565. lia.
Defined.

End MySqlSysVersions.
